(** * The admission workflow: agents, graph and engine

    A shallow embedding of the admission pipeline of this repository:
    the application record and workflow state (agentic_framework/workflow.py),
    the five agents' [process] handlers (agents/*.py) and the LangGraph
    workflow that chains them.

    Conventions of the embedding.
    - Python [str] is [string] (ASCII), [int] is [Z], [Dict[str, _]] is a
      [gmap string _], lists are lists.
    - A [float] is the rational its decimal numeral denotes ([Q], in lowest
      terms).  The rounding to a double is not modelled; the floats the
      decisions depend on (the 3.5 of the simulated transcript, the default
      threshold 3.0, the loan factors 0.75, 0.5 and 0.25) are doubles.
    - A handler mutates the state it is given and returns it; here it is a
      function from the state before to the state after.
    - An exception is the [Raise] case of [Res].
    - What the agents obtain from outside the repository (the vector store's
      search results, the random draws) and the texts they render for the
      student are fields of [World]. *)

From Stdlib Require Import ZArith QArith Ascii String List Bool Sorted Lia Lqa.
From stdpp Require Import base option strings list gmap.
Import ListNotations.

Local Open Scope string_scope.
Local Open Scope Z_scope.
Local Open Scope list_scope.

(** ** Python values, exceptions *)

Inductive PyVal :=
| VNone
| VBool (b : bool)
| VInt (z : Z)
| VFloat (q : Q)
| VStr (s : string)
| VStrs (l : list (option string)).

(** Python truthiness, as used by [if loan_requested:]. *)
Definition truthy (v : PyVal) : bool :=
  match v with
  | VNone => false
  | VBool b => b
  | VInt z => negb (z =? 0)
  | VFloat q => negb (Qeq_bool q 0)
  | VStr s => negb (String.eqb s "")
  | VStrs l => match l with [] => false | _ => true end
  end.

Inductive PyExn := ValueError | TypeError | GraphRecursionError.

Inductive Res (A : Type) :=
| Ok (a : A)
| Raise (e : PyExn).
Arguments Ok {A} a.
Arguments Raise {A} e.

Definition bind {A B} (r : Res A) (k : A -> Res B) : Res B :=
  match r with
  | Ok a => k a
  | Raise e => Raise e
  end.

Notation "'let?' x ':=' r 'in' k" := (bind r (fun x => k))
  (at level 10, x name, r at level 100, k at level 200).

(** ** Data model (workflow.py, lines 13-34) *)

Record Communication := {
  c_type : string;
  c_subject : string;
  c_content : string;
  c_timestamp : string
}.

Record LoanDetails := {
  eligible : bool;
  loan_amount : Z;
  family_income : Z;
  credit_score : Z;
  interest_rate : Q;
  repayment_period_years : Z;
  reasons : list (option string)
}.

Record PaymentDetails := {
  amount_paid : Z;
  payment_method : string;
  payment_date : string;
  transaction_id : string
}.

Record ApplicationStatus := {
  application_id : string;
  student_name : string;
  status : string;
  documents : gmap string string;
  verification_notes : option string;
  eligibility_score : option Q;
  shortlisting_notes : option string;
  communications : list Communication;
  loan_details : option LoanDetails;
  payment_details : option PaymentDetails
}.

(** A history entry is a dict with the keys "agent" and "action" and some
    entry-specific keys, kept in the order the source writes them. *)
Record HistoryEntry := {
  h_agent : string;
  h_action : string;
  h_fields : list (string * PyVal)
}.

Record AdmissionState := {
  application : ApplicationStatus;
  current_agent : string;
  history : list HistoryEntry;
  context : gmap string PyVal
}.

(** Attribute assignments [application.x = v]. *)
Definition set_status (v : string) (a : ApplicationStatus) : ApplicationStatus :=
  {| application_id := application_id a; student_name := student_name a;
     status := v; documents := documents a;
     verification_notes := verification_notes a;
     eligibility_score := eligibility_score a;
     shortlisting_notes := shortlisting_notes a;
     communications := communications a;
     loan_details := loan_details a; payment_details := payment_details a |}.

Definition set_verification_notes (v : option string) (a : ApplicationStatus)
  : ApplicationStatus :=
  {| application_id := application_id a; student_name := student_name a;
     status := status a; documents := documents a;
     verification_notes := v;
     eligibility_score := eligibility_score a;
     shortlisting_notes := shortlisting_notes a;
     communications := communications a;
     loan_details := loan_details a; payment_details := payment_details a |}.

Definition set_eligibility_score (v : option Q) (a : ApplicationStatus)
  : ApplicationStatus :=
  {| application_id := application_id a; student_name := student_name a;
     status := status a; documents := documents a;
     verification_notes := verification_notes a;
     eligibility_score := v;
     shortlisting_notes := shortlisting_notes a;
     communications := communications a;
     loan_details := loan_details a; payment_details := payment_details a |}.

Definition set_shortlisting_notes (v : option string) (a : ApplicationStatus)
  : ApplicationStatus :=
  {| application_id := application_id a; student_name := student_name a;
     status := status a; documents := documents a;
     verification_notes := verification_notes a;
     eligibility_score := eligibility_score a;
     shortlisting_notes := v;
     communications := communications a;
     loan_details := loan_details a; payment_details := payment_details a |}.

Definition set_loan_details (v : option LoanDetails) (a : ApplicationStatus)
  : ApplicationStatus :=
  {| application_id := application_id a; student_name := student_name a;
     status := status a; documents := documents a;
     verification_notes := verification_notes a;
     eligibility_score := eligibility_score a;
     shortlisting_notes := shortlisting_notes a;
     communications := communications a;
     loan_details := v; payment_details := payment_details a |}.

Definition set_payment_details (v : option PaymentDetails) (a : ApplicationStatus)
  : ApplicationStatus :=
  {| application_id := application_id a; student_name := student_name a;
     status := status a; documents := documents a;
     verification_notes := verification_notes a;
     eligibility_score := eligibility_score a;
     shortlisting_notes := shortlisting_notes a;
     communications := communications a;
     loan_details := loan_details a; payment_details := v |}.

(** [application.communications.append(c)] *)
Definition append_communication (c : Communication) (a : ApplicationStatus)
  : ApplicationStatus :=
  {| application_id := application_id a; student_name := student_name a;
     status := status a; documents := documents a;
     verification_notes := verification_notes a;
     eligibility_score := eligibility_score a;
     shortlisting_notes := shortlisting_notes a;
     communications := communications a ++ [c];
     loan_details := loan_details a; payment_details := payment_details a |}.

(** The handlers reach the application through [state["application"]]. *)
Definition with_application (a : ApplicationStatus) (st : AdmissionState)
  : AdmissionState :=
  {| application := a; current_agent := current_agent st;
     history := history st; context := context st |}.

(** [state["history"].append(h)] *)
Definition append_history (h : HistoryEntry) (st : AdmissionState)
  : AdmissionState :=
  {| application := application st; current_agent := current_agent st;
     history := history st ++ [h]; context := context st |}.

(** [state["current_agent"] = v] *)
Definition set_current_agent (v : string) (st : AdmissionState)
  : AdmissionState :=
  {| application := application st; current_agent := v;
     history := history st; context := context st |}.

(** [state["context"].get(k, default)] *)
Definition context_get (st : AdmissionState) (k : string) (default : PyVal)
  : PyVal :=
  match context st !! k with
  | Some v => v
  | None => default
  end.

(** ** What comes from outside the repository *)

Record World := {
  (** [vector_store.search(query, n_results=1)]: the text of the first result,
      [None] when the result list is empty. *)
  search : string -> option string;
  (** [random.randint(20000, 100000)] and [random.randint(500, 800)] of
      [LoanAgent.calculate_eligibility]. *)
  randint_income : Z;
  randint_credit : Z;
  (** [random.randint(0, capacity)] drawn for a program by
      [check_program_availability]. *)
  randint_enrollment : string -> Z -> Z;
  (** [random.uniform(-0.2, 0.2)] of [rank_application]. *)
  random_factor : Q;
  (** [re.findall(r"([\w\s]+):\s*(\d+)", text)] with the second group read
      by [int]. *)
  capacity_findall : string -> list (string * Z);
  (** Printing: [f"{x}"] for a float, [f"{x:.2f}"], [f"{v}"] for a context
      value. *)
  repr_float : Q -> string;
  format_2f : Q -> string;
  str_value : PyVal -> string;
  (** Rendered texts: what [generate_shortlist_notification],
      [handle_payment_instructions], [handle_loan_information],
      [generate_loan_approval_letter], [generate_loan_rejection_letter],
      [generate_admission_letter], [generate_fee_slip] and the payment
      reminder f-string return for their arguments.  The template lookups
      and substitutions inside them are not modelled. *)
  shortlist_notification_text : string -> PyVal -> string;
  payment_instructions_text : string -> PyVal -> string;
  loan_information_text : string;
  loan_approval_letter_text : string -> LoanDetails -> string;
  loan_rejection_letter_text : string -> list (option string) -> string;
  admission_letter_text : string -> PyVal -> string;
  fee_slip_text : string -> PyVal -> string;
  payment_reminder_text : string -> string
}.

(** ** The regular expressions of the agents

    Every pattern the decision logic searches for has the shape
    [literal \s* (class+) literal]: a literal prefix, optional white space,
    one captured group over a character class, and a literal suffix (the
    white space and the suffix may be absent).  The classes never overlap
    with the white space or with the suffix, so the greedy match of
    [re.search] is the only one at a given start position. *)

Definition is_digit (a : ascii) : bool :=
  let n := N_of_ascii a in ((48 <=? n) && (n <=? 57))%N.

(** [\s] on ASCII text (Python counts the separators 28-31 as white space). *)
Definition is_space (a : ascii) : bool :=
  let n := N_of_ascii a in
  ((9 <=? n) && (n <=? 13) || (28 <=? n) && (n <=? 32))%N.

(** [[\d.]] and [[\d,]] *)
Definition is_digit_or_dot (a : ascii) : bool :=
  is_digit a || Ascii.eqb a ".".
Definition is_digit_or_comma (a : ascii) : bool :=
  is_digit a || Ascii.eqb a ",".

(** Longest prefix of [s] in the class, and what follows it. *)
Fixpoint span (p : ascii -> bool) (s : string) : string * string :=
  match s with
  | EmptyString => ("", "")
  | String a r =>
      if p a then let '(x, y) := span p r in (String a x, y)
      else ("", s)
  end.

Fixpoint strip_prefix (pre s : string) : option string :=
  match pre with
  | EmptyString => Some s
  | String a pre' =>
      match s with
      | EmptyString => None
      | String b s' => if Ascii.eqb a b then strip_prefix pre' s' else None
      end
  end.

Record Pattern := {
  p_prefix : string;
  p_spaces : bool;
  p_class : ascii -> bool;
  p_suffix : string
}.

(** A match starting exactly at the head of [s]; the captured group. *)
Definition match_here (p : Pattern) (s : string) : option string :=
  match strip_prefix (p_prefix p) s with
  | None => None
  | Some r =>
      let r' := if p_spaces p then snd (span is_space r) else r in
      let '(g, tl) := span (p_class p) r' in
      match g with
      | EmptyString => None
      | _ => match strip_prefix (p_suffix p) tl with
             | Some _ => Some g
             | None => None
             end
      end
  end.

(** [re.search(p, s)]: the leftmost match; [group(1)]. *)
Fixpoint re_search (p : Pattern) (s : string) : option string :=
  match match_here p s with
  | Some g => Some g
  | None =>
      match s with
      | EmptyString => None
      | String _ r => re_search p r
      end
  end.

(** r"GPA:\s*([\d.]+)" *)
Definition gpa_pattern : Pattern :=
  {| p_prefix := "GPA:"; p_spaces := true;
     p_class := is_digit_or_dot; p_suffix := "" |}.
(** r"minimum GPA of ([\d.]+)" *)
Definition min_gpa_pattern : Pattern :=
  {| p_prefix := "minimum GPA of "; p_spaces := false;
     p_class := is_digit_or_dot; p_suffix := "" |}.
(** r"maximum loan amount of \$([\d,]+)" *)
Definition max_loan_pattern : Pattern :=
  {| p_prefix := "maximum loan amount of $"; p_spaces := false;
     p_class := is_digit_or_comma; p_suffix := "" |}.
(** r"interest rate of ([\d.]+)%" *)
Definition interest_pattern : Pattern :=
  {| p_prefix := "interest rate of "; p_spaces := false;
     p_class := is_digit_or_dot; p_suffix := "%" |}.

(** Value of a string of decimal digits. *)
Fixpoint digits_value (acc : Z) (s : string) : Z :=
  match s with
  | EmptyString => acc
  | String a r => digits_value (acc * 10 + (Z.of_N (N_of_ascii a) - 48)) r
  end.

Fixpoint pow10 (n : nat) : positive :=
  match n with
  | O => 1%positive
  | S k => (10 * pow10 k)%positive
  end.

(** [float(s)] for [s] made of digits and dots: a [ValueError] unless there
    is at most one dot and at least one digit. *)
Definition parse_float (s : string) : Res Q :=
  let '(ip, rest) := span is_digit s in
  match rest with
  | EmptyString =>
      match ip with
      | EmptyString => Raise ValueError
      | _ => Ok (inject_Z (digits_value 0 ip))
      end
  | String _ fp =>
      match span is_digit fp with
      | (fd, EmptyString) =>
          match ip +:+ fd with
          | EmptyString => Raise ValueError
          | ds => Ok (Qred (digits_value 0 ds # pow10 (String.length fd)))
          end
      | _ => Raise ValueError
      end
  end.

Fixpoint remove_commas (s : string) : string :=
  match s with
  | EmptyString => ""
  | String a r =>
      if Ascii.eqb a "," then remove_commas r else String a (remove_commas r)
  end.

(** [int(s.replace(",", ""))] for [s] made of digits and commas. *)
Definition parse_int (s : string) : Res Z :=
  match remove_commas s with
  | EmptyString => Raise ValueError
  | ds => Ok (digits_value 0 ds)
  end.

(** ** Document Checker (agents/document_checker.py) *)

Module DocumentChecker.

Definition name : string := "Document Checker".

Definition required_documents : list string :=
  [ "application_form"; "academic_transcripts"; "id_passport";
    "recommendation_letters"; "statement_of_purpose" ].

(** [doc_type in documents] *)
Definition has_document (documents : gmap string string) (doc_type : string)
  : bool :=
  match documents !! doc_type with
  | Some _ => true
  | None => false
  end.

(** The dict [completeness], in insertion order. *)
Definition check_document_completeness (documents : gmap string string)
  : list (string * bool) :=
  map (fun doc_type => (doc_type, has_document documents doc_type))
      required_documents.

Record Credentials := {
  gpa : option Q;
  min_gpa_required : Q;
  is_valid : bool
}.

(** [gpa >= min_gpa_required] *)
Definition Qge_bool (x y : Q) : bool := Qle_bool y x.

Definition validate_academic_credentials (w : World) (transcript_text : string)
  : Res Credentials :=
  let? gpa :=
    match re_search gpa_pattern transcript_text with
    | Some g => let? v := parse_float g in Ok (Some v)
    | None => Ok None
    end in
  let? min_gpa_required :=
    match search w "eligibility criteria" with
    | Some text =>
        match re_search min_gpa_pattern text with
        | Some m => parse_float m
        | None => Ok (3 # 1)
        end
    | None => Ok (3 # 1)
    end in
  let is_valid :=
    match gpa with
    | Some g => Qge_bool g min_gpa_required
    | None => false
    end in
  Ok {| gpa := gpa; min_gpa_required := min_gpa_required;
        is_valid := is_valid |}.

(** The simulated extraction of line 134. *)
Definition transcript_text : string :=
  "Student Academic Record" +:+ String (ascii_of_nat 10) "GPA: 3.5"
  +:+ String (ascii_of_nat 10) "Major: Computer Science".

Definition missing_docs (completeness : list (string * bool)) : list string :=
  map fst (List.filter (fun dp => negb (snd dp)) completeness).

Definition repr_opt_float (w : World) (x : option Q) : string :=
  match x with
  | Some q => repr_float w q
  | None => "None"
  end.

Definition rejection (verification_notes : string) (st : AdmissionState)
  : AdmissionState :=
  let application :=
    set_verification_notes (Some verification_notes)
      (set_status "documents_rejected" (application st)) in
  append_history
    {| h_agent := name; h_action := "document_rejection";
       h_fields := [("reason", VStr verification_notes)] |}
    (with_application application st).

Definition process (w : World) (st : AdmissionState) : Res AdmissionState :=
  let documents := documents (application st) in
  let completeness := check_document_completeness documents in
  let all_documents_present := forallb snd completeness in
  if negb all_documents_present then
    let verification_notes :=
      "Missing documents: " +:+ String.concat ", " (missing_docs completeness) in
    Ok (rejection verification_notes st)
  else
    let? credentials_result := validate_academic_credentials w transcript_text in
    if negb (is_valid credentials_result) then
      let verification_notes :=
        "Academic credentials do not meet requirements. GPA: "
        +:+ repr_opt_float w (gpa credentials_result)
        +:+ ", Required GPA: "
        +:+ repr_float w (min_gpa_required credentials_result) in
      Ok (rejection verification_notes st)
    else
      let verification_notes := "All documents verified successfully." in
      let application :=
        set_eligibility_score (gpa credentials_result)
          (set_verification_notes (Some verification_notes)
             (set_status "documents_verified" (application st))) in
      Ok (set_current_agent "shortlisting_agent"
            (append_history
               {| h_agent := name; h_action := "document_verification";
                  h_fields := [("result", VStr "success");
                               ("notes", VStr verification_notes)] |}
               (with_application application st))).

End DocumentChecker.

(** ** Shortlisting Agent (agents/shortlisting_agent.py) *)

(** [sub in s] *)
Fixpoint contains (sub s : string) : bool :=
  match strip_prefix sub s with
  | Some _ => true
  | None =>
      match s with
      | EmptyString => false
      | String _ r => contains sub r
      end
  end.

Module ShortlistingAgent.

Definition name : string := "Shortlisting Agent".

(** The entry "min_gpa" of the criteria dict; the other entries are not read. *)
Definition get_eligibility_criteria (w : World) : Res Q :=
  match search w "eligibility criteria" with
  | Some criteria_text =>
      match re_search min_gpa_pattern criteria_text with
      | Some m => parse_float m
      | None => Ok (3 # 1)
      end
  | None => Ok (3 # 1)
  end.

Definition default_capacities : gmap string Z :=
  <["Arts and Humanities" := 200]>
  (<["Medicine" := 80]>
  (<["Engineering" := 120]>
  (<["Business Administration" := 150]>
  (<["Computer Science" := 100]> ∅)))).

(** [capacity_findall] gives, for each match, the stripped program name and
    the capacity. *)
Definition get_program_capacity (w : World) : gmap string Z :=
  match search w "university capacity" with
  | Some capacity_text =>
      fold_left (fun capacities pc => <[fst pc := snd pc]> capacities)
                (capacity_findall w capacity_text) default_capacities
  | None => default_capacities
  end.

(** A list is not hashable: [program not in capacities] raises for it. *)
Definition check_program_availability (w : World) (program : PyVal) : Res bool :=
  let capacities := get_program_capacity w in
  match program with
  | VStr p =>
      match capacities !! p with
      | None => Ok false
      | Some capacity => Ok (randint_enrollment w p capacity <? capacity)
      end
  | VStrs _ => Raise TypeError
  | _ => Ok false
  end.

Definition rank_application (w : World) (application : ApplicationStatus) : Q :=
  let base_score :=
    match eligibility_score application with
    | Some q => if Qeq_bool q 0 then 0%Q else q
    | None => 0%Q
    end in
  let base_score :=
    match verification_notes application with
    | Some notes =>
        if negb (String.eqb notes "") && contains "success" notes
        then (base_score + (1 # 2))%Q else base_score
    | None => base_score
    end in
  Qred (base_score + random_factor w).

Definition rejection (shortlisting_notes : string) (st : AdmissionState)
  : AdmissionState :=
  let application :=
    set_shortlisting_notes (Some shortlisting_notes)
      (set_status "rejected" (application st)) in
  append_history
    {| h_agent := name; h_action := "application_rejection";
       h_fields := [("reason", VStr shortlisting_notes)] |}
    (with_application application st).

Definition process (w : World) (st : AdmissionState) : Res AdmissionState :=
  if negb (String.eqb (status (application st)) "documents_verified") then Ok st
  else
    let? min_gpa := get_eligibility_criteria w in
    match eligibility_score (application st) with
    | None => Raise TypeError
    | Some score =>
        if negb (Qle_bool min_gpa score) then
          Ok (rejection
                ("Application rejected: Eligibility score (" +:+ repr_float w score
                 +:+ ") below minimum requirement (" +:+ repr_float w min_gpa
                 +:+ ")") st)
        else
          let program := context_get st "program" (VStr "Computer Science") in
          let? available := check_program_availability w program in
          if negb available then
            Ok (rejection
                  ("Application rejected: No capacity available in the "
                   +:+ str_value w program +:+ " program") st)
          else
            let rank_score := rank_application w (application st) in
            let shortlisting_notes :=
              "Application shortlisted with rank score: "
              +:+ format_2f w rank_score in
            let application :=
              set_shortlisting_notes (Some shortlisting_notes)
                (set_status "shortlisted" (application st)) in
            Ok (set_current_agent "student_counselor"
                  (append_history
                     {| h_agent := name; h_action := "application_shortlisting";
                        h_fields := [("rank_score", VFloat rank_score);
                                     ("notes", VStr shortlisting_notes)] |}
                     (with_application application st)))
    end.

End ShortlistingAgent.

(** ** Student Counselor (agents/student_counselor.py) *)

Module StudentCounselor.

Definition name : string := "Student Counselor".

Definition process (w : World) (st : AdmissionState) : AdmissionState :=
  if negb (String.eqb (status (application st)) "shortlisted") then st
  else
    let program := context_get st "program" (VStr "Computer Science") in
    let notification :=
      shortlist_notification_text w (student_name (application st)) program in
    let application :=
      append_communication
        {| c_type := "notification"; c_subject := "Application Shortlisted";
           c_content := notification; c_timestamp := "2023-05-15T14:30:00Z" |}
        (application st) in
    let loan_requested := context_get st "loan_requested" (VBool false) in
    if truthy loan_requested then
      let loan_info := loan_information_text w in
      let application :=
        set_status "loan_requested"
          (append_communication
             {| c_type := "information"; c_subject := "Student Loan Information";
                c_content := loan_info; c_timestamp := "2023-05-15T14:35:00Z" |}
             application) in
      set_current_agent "loan_agent"
        (append_history
           {| h_agent := name; h_action := "loan_information_sent";
              h_fields := [("notes", VStr "Student loan information provided")] |}
           (with_application application st))
    else
      let payment_info :=
        payment_instructions_text w (student_name application) program in
      let application :=
        set_status "awaiting_payment"
          (append_communication
             {| c_type := "instruction"; c_subject := "Payment Instructions";
                c_content := payment_info; c_timestamp := "2023-05-15T14:32:00Z" |}
             application) in
      set_current_agent "admission_officer"
        (append_history
           {| h_agent := name; h_action := "payment_instructions_sent";
              h_fields := [("notes", VStr "Payment instructions sent to student")] |}
           (with_application application st)).

End StudentCounselor.

(** ** Loan Agent (agents/loan_agent.py) *)

Module LoanAgent.

Definition name : string := "Loan Agent".

Record Policies := {
  max_loan_amount : Z;
  policy_interest_rate : Q;
  policy_repayment_period_years : Z;
  grace_period_months : Z;
  minimum_income_requirement : Z;
  credit_score_requirement : Z
}.

Definition default_policies : Policies :=
  {| max_loan_amount := 20000;
     policy_interest_rate := 4 # 1;
     policy_repayment_period_years := 10;
     grace_period_months := 6;
     minimum_income_requirement := 25000;
     credit_score_requirement := 650 |}.

Definition get_loan_policies (w : World) : Res Policies :=
  match search w "loan policy" with
  | Some policy_text =>
      let? max_loan :=
        match re_search max_loan_pattern policy_text with
        | Some m => parse_int m
        | None => Ok (max_loan_amount default_policies)
        end in
      let? interest :=
        match re_search interest_pattern policy_text with
        | Some m => parse_float m
        | None => Ok (policy_interest_rate default_policies)
        end in
      Ok {| max_loan_amount := max_loan;
            policy_interest_rate := interest;
            policy_repayment_period_years :=
              policy_repayment_period_years default_policies;
            grace_period_months := grace_period_months default_policies;
            minimum_income_requirement :=
              minimum_income_requirement default_policies;
            credit_score_requirement :=
              credit_score_requirement default_policies |}
  | None => Ok default_policies
  end.

(** [int(max_amount * 0.75)] and the like: the factors are dyadic, so the
    float product is the exact one (for amounts below 2^51), and [int]
    drops the fraction. *)
Definition tiered_amount (max_amount family_income : Z) : Z :=
  if family_income <? 40000 then max_amount
  else if family_income <? 60000 then Z.quot (max_amount * 3) 4
  else if family_income <? 80000 then Z.quot max_amount 2
  else Z.quot max_amount 4.

Definition calculate_eligibility (w : World) (application : ApplicationStatus)
  : Res LoanDetails :=
  let? policies := get_loan_policies w in
  let family_income := randint_income w in
  let credit_score := randint_credit w in
  let eligible :=
    (minimum_income_requirement policies <=? family_income)
    && (credit_score_requirement policies <=? credit_score) in
  let max_amount := max_loan_amount policies in
  let loan_amount :=
    if eligible then tiered_amount max_amount family_income else 0 in
  Ok {| eligible := eligible;
        loan_amount := loan_amount;
        family_income := family_income;
        credit_score := credit_score;
        interest_rate := policy_interest_rate policies;
        repayment_period_years := policy_repayment_period_years policies;
        reasons :=
          if eligible then []
          else [ if family_income <? minimum_income_requirement policies
                 then Some "Insufficient family income" else None;
                 if credit_score <? credit_score_requirement policies
                 then Some "Insufficient credit score" else None ] |}.

Definition process (w : World) (st : AdmissionState) : Res AdmissionState :=
  if negb (String.eqb (status (application st)) "loan_requested") then Ok st
  else
    let? loan_details := calculate_eligibility w (application st) in
    let application := set_loan_details (Some loan_details) (application st) in
    let st :=
      if eligible loan_details then
        let approval_letter :=
          loan_approval_letter_text w (student_name application) loan_details in
        let application :=
          set_status "loan_approved"
            (append_communication
               {| c_type := "letter"; c_subject := "Loan Application Approved";
                  c_content := approval_letter;
                  c_timestamp := "2023-05-20T10:15:00Z" |}
               application) in
        append_history
          {| h_agent := name; h_action := "loan_approval";
             h_fields := [("loan_amount", VInt (loan_amount loan_details));
                          ("notes", VStr "Loan application approved")] |}
          (with_application application st)
      else
        let rejection_letter :=
          loan_rejection_letter_text w (student_name application)
                                     (reasons loan_details) in
        let application :=
          set_status "loan_rejected"
            (append_communication
               {| c_type := "letter"; c_subject := "Loan Application Rejected";
                  c_content := rejection_letter;
                  c_timestamp := "2023-05-20T10:15:00Z" |}
               application) in
        append_history
          {| h_agent := name; h_action := "loan_rejection";
             h_fields := [("reasons", VStrs (reasons loan_details));
                          ("notes", VStr "Loan application rejected")] |}
          (with_application application st) in
    Ok (set_current_agent "admission_officer" st).

End LoanAgent.

(** ** Admission Officer (agents/admission_officer.py) *)

Module AdmissionOfficer.

Definition name : string := "Admission Officer".

Definition finalize_admission (w : World) (application : ApplicationStatus)
    (program : PyVal) : ApplicationStatus :=
  let admission_letter :=
    admission_letter_text w (student_name application) program in
  let application :=
    append_communication
      {| c_type := "letter"; c_subject := "Admission Letter";
         c_content := admission_letter; c_timestamp := "2023-05-25T09:00:00Z" |}
      application in
  let fee_slip := fee_slip_text w (student_name application) program in
  let application :=
    append_communication
      {| c_type := "document"; c_subject := "Fee Slip";
         c_content := fee_slip; c_timestamp := "2023-05-25T09:05:00Z" |}
      application in
  set_status "admitted" application.

(** The three [if] statements of [process], one after the other. *)

Definition payment_branch (st : AdmissionState) : AdmissionState :=
  if String.eqb (status (application st)) "awaiting_payment" then
    let payment :=
      {| amount_paid := 12000; payment_method := "Online";
         payment_date := "2023-05-22T14:30:00Z";
         transaction_id := "TRX12345678" |} in
    let application :=
      set_status "payment_completed"
        (set_payment_details (Some payment) (application st)) in
    append_history
      {| h_agent := name; h_action := "payment_received";
         h_fields := [("amount", VInt (amount_paid payment));
                      ("notes", VStr "Payment received and processed")] |}
      (with_application application st)
  else st.

Definition finalize_branch (w : World) (program : PyVal) (st : AdmissionState)
  : AdmissionState :=
  if String.eqb (status (application st)) "payment_completed"
     || String.eqb (status (application st)) "loan_approved" then
    let application := finalize_admission w (application st) program in
    append_history
      {| h_agent := name; h_action := "admission_finalized";
         h_fields := [("notes", VStr "Admission letter and fee slip generated")] |}
      (with_application application st)
  else st.

Definition reminder_branch (w : World) (st : AdmissionState) : AdmissionState :=
  if String.eqb (status (application st)) "loan_rejected" then
    let payment_reminder :=
      payment_reminder_text w (student_name (application st)) in
    let application :=
      set_status "awaiting_payment"
        (append_communication
           {| c_type := "letter"; c_subject := "Payment Reminder";
              c_content := payment_reminder;
              c_timestamp := "2023-05-25T14:00:00Z" |}
           (application st)) in
    append_history
      {| h_agent := name; h_action := "payment_reminder_sent";
         h_fields := [("notes", VStr "Payment reminder sent after loan rejection")] |}
      (with_application application st)
  else st.

Definition process (w : World) (st : AdmissionState) : AdmissionState :=
  let program := context_get st "program" (VStr "Computer Science") in
  reminder_branch w (finalize_branch w program (payment_branch st)).

End AdmissionOfficer.

(** ** The workflow graph and its engine (agentic_framework/workflow.py) *)

Module Workflow.

(** The nodes added by [create_admission_workflow]. *)
Inductive Node :=
| document_checker
| shortlisting_agent
| student_counselor
| loan_agent
| admission_officer.

Inductive Target :=
| Goto (n : Node)
| END.

(** [workflow.add_node(name, agents[name].process)] *)
Definition node_process (w : World) (n : Node) (st : AdmissionState)
  : Res AdmissionState :=
  match n with
  | document_checker => DocumentChecker.process w st
  | shortlisting_agent => ShortlistingAgent.process w st
  | student_counselor => Ok (StudentCounselor.process w st)
  | loan_agent => LoanAgent.process w st
  | admission_officer => Ok (AdmissionOfficer.process w st)
  end.

(** [workflow.set_entry_point("document_checker")] *)
Definition entry_point : Node := document_checker.

(** The edges out of a node: the three conditional edges with their lambdas
    and the two plain edges (lines 71-93). *)
Definition next (n : Node) (st : AdmissionState) : Target :=
  match n with
  | document_checker =>
      if String.eqb (status (application st)) "documents_verified"
      then Goto shortlisting_agent else END
  | shortlisting_agent =>
      if String.eqb (status (application st)) "shortlisted"
      then Goto student_counselor else END
  | student_counselor =>
      if String.eqb (status (application st)) "loan_requested"
      then Goto loan_agent else Goto admission_officer
  | loan_agent => Goto admission_officer
  | admission_officer => END
  end.

(** The compiled graph run from node [n]: the node's handler, then the edge
    out of it, until END.  The result carries the nodes run, in order.
    [fuel] is the number of node executions the engine allows; running out
    of it is LangGraph's [GraphRecursionError].  (LangGraph counts
    supersteps against its [recursion_limit]; a path takes one per node.) *)
Fixpoint run (w : World) (fuel : nat) (n : Node) (st : AdmissionState)
  : Res (list Node * AdmissionState) :=
  match fuel with
  | O => Raise GraphRecursionError
  | S fuel' =>
      let? st' := node_process w n st in
      match next n st' with
      | END => Ok ([n], st')
      | Goto m =>
          let? r := run w fuel' m st' in
          Ok (n :: fst r, snd r)
      end
  end.

(** [workflow_app.invoke(state)] *)
Definition invoke (w : World) (recursion_limit : nat) (st : AdmissionState)
  : Res (list Node * AdmissionState) :=
  run w recursion_limit entry_point st.

(** LangGraph's default, which [process_application] does not override. *)
Definition default_recursion_limit : nat := 25.

(** The argument of [process_application]: a dict with the keys
    "application_id" and "student_name" and, optionally, "documents" and
    "context". *)
Record ApplicationData := {
  d_application_id : string;
  d_student_name : string;
  d_documents : option (gmap string string);
  d_context : option (gmap string PyVal)
}.

Definition initial_state (application_data : ApplicationData) : AdmissionState :=
  let application :=
    {| application_id := d_application_id application_data;
       student_name := d_student_name application_data;
       status := "new";
       documents := default ∅ (d_documents application_data);
       verification_notes := None;
       eligibility_score := None;
       shortlisting_notes := None;
       communications := [];
       loan_details := None;
       payment_details := None |} in
  {| application := application;
     current_agent := "document_checker";
     history := [];
     context := default ∅ (d_context application_data) |}.

Definition process_application (w : World) (application_data : ApplicationData)
  : Res (list Node * AdmissionState) :=
  invoke w default_recursion_limit (initial_state application_data).

(** Position of a node along the pipeline. *)
Definition rank (n : Node) : nat :=
  match n with
  | document_checker => 0
  | shortlisting_agent => 1
  | student_counselor => 2
  | loan_agent => 3
  | admission_officer => 4
  end.

End Workflow.

(** ** The statuses of the specification *)

(** The eleven values of the [Literal] type of [ApplicationStatus.status]. *)
Definition known_statuses : list string :=
  [ "new"; "documents_verified"; "documents_rejected"; "shortlisted";
    "rejected"; "admitted"; "awaiting_payment"; "loan_requested";
    "loan_approved"; "loan_rejected"; "payment_completed" ].

(** The terminal statuses the specification names. *)
Definition terminal_status (s : string) : bool :=
  String.eqb s "documents_rejected" || String.eqb s "rejected"
  || String.eqb s "admitted".

(** ** Concrete worlds and states used by the examples *)

Module Examples.

(** A world with the given draws of income and credit score and the given
    knowledge base.  No programme has anybody enrolled, the random factor of
    the rank is zero, and the rendered texts are placeholders. *)
Definition world (income credit : Z) (kb : string -> option string) : World :=
  {| search := kb;
     randint_income := income;
     randint_credit := credit;
     randint_enrollment := fun _ _ => 0;
     random_factor := 0%Q;
     capacity_findall := fun _ => [];
     repr_float := fun _ => "<float>";
     format_2f := fun _ => "<float>";
     str_value := fun _ => "<value>";
     shortlist_notification_text := fun _ _ => "<shortlist notification>";
     payment_instructions_text := fun _ _ => "<payment instructions>";
     loan_information_text := "<loan information>";
     loan_approval_letter_text := fun _ _ => "<loan approval letter>";
     loan_rejection_letter_text := fun _ _ => "<loan rejection letter>";
     admission_letter_text := fun _ _ => "<admission letter>";
     fee_slip_text := fun _ _ => "<fee slip>";
     payment_reminder_text := fun _ => "<payment reminder>" |}.

(** An empty knowledge base: every search is without result, so every agent
    falls back on its defaults. *)
Definition no_kb : string -> option string := fun _ => None.

Definition w0 : World := world 50000 700 no_kb.

(** A family income below the minimum of 25000: the loan is refused. *)
Definition w_poor : World := world 20000 700 no_kb.

(** A knowledge base whose eligibility criteria ask for a GPA of 3.8. *)
Definition kb_strict : string -> option string :=
  fun query =>
    if String.eqb query "eligibility criteria"
    then Some "Applicants need a minimum GPA of 3.8 on a 4.0 scale"
    else None.

Definition w_strict : World := world 50000 700 kb_strict.

Definition all_documents (content : string) : gmap string string :=
  <["statement_of_purpose" := content]>
  (<["recommendation_letters" := content]>
  (<["id_passport" := content]>
  (<["academic_transcripts" := content]>
  (<["application_form" := content]> ∅)))).

Definition no_passport : gmap string string :=
  delete "id_passport" (all_documents "file.pdf").

Definition application_with (s : string) (docs : gmap string string)
  : ApplicationStatus :=
  {| application_id := "APP-1"; student_name := "Ada";
     status := s; documents := docs;
     verification_notes := None; eligibility_score := None;
     shortlisting_notes := None; communications := [];
     loan_details := None; payment_details := None |}.

Definition state_with (s : string) (docs : gmap string string)
    (ctx : gmap string PyVal) : AdmissionState :=
  {| application := application_with s docs;
     current_agent := "document_checker";
     history := []; context := ctx |}.

(** Two submissions with the same five document types and other contents. *)
Definition state_a : AdmissionState :=
  state_with "new" (all_documents "transcript-a.pdf") ∅.
Definition state_b : AdmissionState :=
  state_with "new" (all_documents "something-else.docx") ∅.

Definition loan_context : gmap string PyVal :=
  <["loan_requested" := VBool true]> ∅.

(** A programme the university does not offer. *)
Definition unknown_program : gmap string PyVal :=
  <["program" := VStr "Astrology"]> ∅.

(** A knowledge base that answers the capacity query with a text in which
    the capacity pattern finds [matches]. *)
Definition world_with_capacities (matches : list (string * Z)) : World :=
  {| search := fun query =>
       if String.eqb query "university capacity" then Some "capacities"
       else None;
     randint_income := 50000;
     randint_credit := 700;
     randint_enrollment := fun _ _ => 0;
     random_factor := 0%Q;
     capacity_findall := fun _ => matches;
     repr_float := fun _ => "<float>";
     format_2f := fun _ => "<float>";
     str_value := fun _ => "<value>";
     shortlist_notification_text := fun _ _ => "<shortlist notification>";
     payment_instructions_text := fun _ _ => "<payment instructions>";
     loan_information_text := "<loan information>";
     loan_approval_letter_text := fun _ _ => "<loan approval letter>";
     loan_rejection_letter_text := fun _ _ => "<loan rejection letter>";
     admission_letter_text := fun _ _ => "<admission letter>";
     fee_slip_text := fun _ _ => "<fee slip>";
     payment_reminder_text := fun _ => "<payment reminder>" |}.

Definition data_with (docs : gmap string string) (ctx : gmap string PyVal)
  : Workflow.ApplicationData :=
  {| Workflow.d_application_id := "APP-1"; Workflow.d_student_name := "Ada";
     Workflow.d_documents := Some docs; Workflow.d_context := Some ctx |}.

End Examples.

(** ** The loan rejection letter (agents/loan_agent.py, lines 146-163) *)

Module LoanLetters.

Definition nl : string := String (ascii_of_nat 10) EmptyString.

(** The reasons that pass [if reason]: neither [None] nor empty. *)
Fixpoint stated_reasons (reasons : list (option string)) : list string :=
  match reasons with
  | [] => []
  | Some r :: rest =>
      if String.eqb r "" then stated_reasons rest else r :: stated_reasons rest
  | None :: rest => stated_reasons rest
  end.

Definition reasons_list (reasons : list (option string)) : string :=
  String.concat nl (map (fun reason => "- " +:+ reason) (stated_reasons reasons)).

Definition generate_loan_rejection_letter (student_name : string)
    (reasons : list (option string)) : string :=
  nl +:+ "        Dear " +:+ student_name +:+ "," +:+ nl
  +:+ "        " +:+ nl
  +:+ "        We regret to inform you that your loan application has been rejected."
  +:+ nl
  +:+ "        " +:+ nl
  +:+ "        Reasons for rejection:" +:+ nl
  +:+ "        " +:+ reasons_list reasons +:+ nl
  +:+ "        " +:+ nl
  +:+ "        If you would like to discuss alternative financing options or have questions about the decision,"
  +:+ nl
  +:+ "        please contact our financial aid office." +:+ nl
  +:+ "        " +:+ nl
  +:+ "        Best regards," +:+ nl
  +:+ "        University Financial Aid Office" +:+ nl
  +:+ "        ".

End LoanLetters.

(** ** The agent base class (agentic_framework/agent_base.py) *)

Module AgentBase.

(** A message of the conversation: a dict with the keys "role" and
    "content". *)
Record Message := {
  role : string;
  content : string
}.

Record AgentState := {
  a_context : gmap string PyVal;
  messages : list Message;
  memory : gmap string PyVal
}.

Record Agent := {
  name : string;
  system_prompt : string;
  model_name : string;
  state : AgentState
}.

Definition with_state (s : AgentState) (agent : Agent) : Agent :=
  {| name := name agent; system_prompt := system_prompt agent;
     model_name := model_name agent; state := s |}.

Definition add_to_context (key : string) (value : PyVal) (agent : Agent) : Agent :=
  with_state
    {| a_context := <[key := value]> (a_context (state agent));
       messages := messages (state agent);
       memory := memory (state agent) |} agent.

Definition add_message (r c : string) (agent : Agent) : Agent :=
  with_state
    {| a_context := a_context (state agent);
       messages := messages (state agent) ++ [{| role := r; content := c |}];
       memory := memory (state agent) |} agent.

Definition remember (key : string) (value : PyVal) (agent : Agent) : Agent :=
  with_state
    {| a_context := a_context (state agent);
       messages := messages (state agent);
       memory := <[key := value]> (memory (state agent)) |} agent.

Definition recall (key : string) (agent : Agent) : option PyVal :=
  memory (state agent) !! key.

(** The prompt [generate_response] builds: the system message, the stored
    conversation, the new input. *)
Definition prompt (agent : Agent) (user_input : string) : list Message :=
  [{| role := "system"; content := system_prompt agent |}]
  ++ messages (state agent)
  ++ [{| role := "user"; content := user_input |}].

(** [generate_content] stands for [self.model.generate_content(...).text]. *)
Definition generate_response (generate_content : list Message -> string)
    (user_input : string) (agent : Agent) : string * Agent :=
  let response_text := generate_content (prompt agent user_input) in
  let agent := add_message "user" user_input agent in
  let agent := add_message "assistant" response_text agent in
  (response_text, agent).

(** [generate_response] called on each input in turn; the responses and the
    agent after the last call. *)
Fixpoint converse (generate_content : list Message -> string)
    (inputs : list string) (agent : Agent) : list string * Agent :=
  match inputs with
  | [] => ([], agent)
  | user_input :: rest =>
      let '(response, agent) :=
        generate_response generate_content user_input agent in
      let '(responses, agent) := converse generate_content rest agent in
      (response :: responses, agent)
  end.

(** The exchanges as they are stored: each input followed by its response. *)
Fixpoint exchanges (inputs responses : list string) : list Message :=
  match inputs, responses with
  | u :: inputs, r :: responses =>
      {| role := "user"; content := u |}
      :: {| role := "assistant"; content := r |}
      :: exchanges inputs responses
  | _, _ => []
  end.

End AgentBase.

(** ** Conversation history (agentic_framework/memory.py, lines 96-186)

    The messages held in memory; the file they are also written to is not
    modelled ([_save_conversation] swallows every exception, so what is held
    in memory does not depend on it). *)

Module ConversationMemory.

Record Entry := {
  role : string;
  content : string;
  timestamp : string
}.

(** [l[i:]] for a Python index [i]: a negative index counts from the end,
    and an index out of range is clipped. *)
Definition slice_from {A} (i : Z) (l : list A) : list A :=
  let n := Z.of_nat (length l) in
  let start := if i <? 0 then Z.max (i + n) 0 else Z.min i n in
  drop (Z.to_nat start) l.

(** [now] is [datetime.now().isoformat()]. *)
Definition add_message (now r c : string) (messages : list Entry) : list Entry :=
  messages ++ [{| role := r; content := c; timestamp := now |}].

(** [limit] is [None] or an int; [if limit:] is false for both [None] and 0. *)
Definition get_messages (limit : option Z) (messages : list Entry) : list Entry :=
  match limit with
  | Some k => if k =? 0 then messages else slice_from (- k) messages
  | None => messages
  end.

Definition clear (messages : list Entry) : list Entry := [].

Record Summary := {
  conversation_id : string;
  message_count : nat;
  start_time : option string;
  latest_time : option string;
  participants : gset string
}.

Definition get_summary (id : string) (messages : list Entry) : Summary :=
  {| conversation_id := id;
     message_count := length messages;
     start_time := timestamp <$> head messages;
     latest_time := timestamp <$> last messages;
     participants := list_to_set (map role messages) |}.

End ConversationMemory.

(** ** Utilities (agentic_framework/utils.py) *)

Module Utils.

(** [range(0, n, step)] for a positive [step]. *)
Definition range_by (n step : nat) : list nat :=
  map (fun k => (k * step)%nat) (seq 0 (Nat.div (n + step - 1) step)).

(** [chunked_list]: [range] refuses a step of 0, and with a negative step
    from 0 it is empty. *)
Definition chunked_list {A} (lst : list A) (chunk_size : Z) : Res (list (list A)) :=
  if chunk_size =? 0 then Raise ValueError
  else if chunk_size <? 0 then Ok []
  else
    let size := Z.to_nat chunk_size in
    Ok (map (fun i => take size (drop i lst)) (range_by (length lst) size)).

End Utils.

(** ** The records the handlers append, and the words of the properties *)

(** The payment the Admission Officer assumes (lines 172-177). *)
Definition assumed_payment : PaymentDetails :=
  {| amount_paid := 12000; payment_method := "Online";
     payment_date := "2023-05-22T14:30:00Z";
     transaction_id := "TRX12345678" |}.

Definition payment_received_entry : HistoryEntry :=
  {| h_agent := "Admission Officer"; h_action := "payment_received";
     h_fields := [("amount", VInt 12000);
                  ("notes", VStr "Payment received and processed")] |}.

Definition admission_finalized_entry : HistoryEntry :=
  {| h_agent := "Admission Officer"; h_action := "admission_finalized";
     h_fields := [("notes", VStr "Admission letter and fee slip generated")] |}.

Definition payment_reminder_entry : HistoryEntry :=
  {| h_agent := "Admission Officer"; h_action := "payment_reminder_sent";
     h_fields := [("notes", VStr "Payment reminder sent after loan rejection")] |}.

Definition admission_letter (w : World) (st : AdmissionState) : Communication :=
  {| c_type := "letter"; c_subject := "Admission Letter";
     c_content :=
       admission_letter_text w (student_name (application st))
         (context_get st "program" (VStr "Computer Science"));
     c_timestamp := "2023-05-25T09:00:00Z" |}.

Definition fee_slip (w : World) (st : AdmissionState) : Communication :=
  {| c_type := "document"; c_subject := "Fee Slip";
     c_content :=
       fee_slip_text w (student_name (application st))
         (context_get st "program" (VStr "Computer Science"));
     c_timestamp := "2023-05-25T09:05:00Z" |}.

Definition payment_reminder (w : World) (st : AdmissionState) : Communication :=
  {| c_type := "letter"; c_subject := "Payment Reminder";
     c_content := payment_reminder_text w (student_name (application st));
     c_timestamp := "2023-05-25T14:00:00Z" |}.

Definition shortlist_notification (w : World) (st : AdmissionState) : Communication :=
  {| c_type := "notification"; c_subject := "Application Shortlisted";
     c_content :=
       shortlist_notification_text w (student_name (application st))
         (context_get st "program" (VStr "Computer Science"));
     c_timestamp := "2023-05-15T14:30:00Z" |}.

Definition loan_information (w : World) : Communication :=
  {| c_type := "information"; c_subject := "Student Loan Information";
     c_content := loan_information_text w;
     c_timestamp := "2023-05-15T14:35:00Z" |}.

Definition payment_instructions (w : World) (st : AdmissionState) : Communication :=
  {| c_type := "instruction"; c_subject := "Payment Instructions";
     c_content :=
       payment_instructions_text w (student_name (application st))
         (context_get st "program" (VStr "Computer Science"));
     c_timestamp := "2023-05-15T14:32:00Z" |}.

Definition loan_information_sent_entry : HistoryEntry :=
  {| h_agent := "Student Counselor"; h_action := "loan_information_sent";
     h_fields := [("notes", VStr "Student loan information provided")] |}.

Definition payment_instructions_sent_entry : HistoryEntry :=
  {| h_agent := "Student Counselor"; h_action := "payment_instructions_sent";
     h_fields := [("notes", VStr "Payment instructions sent to student")] |}.

(** The value of [if loan_requested:] for a state. *)
Definition loan_requested_flag (st : AdmissionState) : bool :=
  truthy (context_get st "loan_requested" (VBool false)).

Definition loan_approval_letter (w : World) (st : AdmissionState)
    (ld : LoanDetails) : Communication :=
  {| c_type := "letter"; c_subject := "Loan Application Approved";
     c_content := loan_approval_letter_text w (student_name (application st)) ld;
     c_timestamp := "2023-05-20T10:15:00Z" |}.

Definition loan_rejection_letter (w : World) (st : AdmissionState)
    (ld : LoanDetails) : Communication :=
  {| c_type := "letter"; c_subject := "Loan Application Rejected";
     c_content :=
       loan_rejection_letter_text w (student_name (application st)) (reasons ld);
     c_timestamp := "2023-05-20T10:15:00Z" |}.

Definition loan_approval_entry (ld : LoanDetails) : HistoryEntry :=
  {| h_agent := "Loan Agent"; h_action := "loan_approval";
     h_fields := [("loan_amount", VInt (loan_amount ld));
                  ("notes", VStr "Loan application approved")] |}.

Definition loan_rejection_entry (ld : LoanDetails) : HistoryEntry :=
  {| h_agent := "Loan Agent"; h_action := "loan_rejection";
     h_fields := [("reasons", VStrs (reasons ld));
                  ("notes", VStr "Loan application rejected")] |}.

(** The required document types that [documents] lacks, in the order of
    [required_documents]. *)
Definition missing_types (documents : gmap string string) : list string :=
  List.filter (fun d => negb (DocumentChecker.has_document documents d))
              DocumentChecker.required_documents.

(** [n] comes before [m] in the pipeline. *)
Definition before (n m : Workflow.Node) : Prop :=
  (Workflow.rank n < Workflow.rank m)%nat.


(** The status with which the graph reaches a node. *)
Definition expects (n : Workflow.Node) (s : string) : Prop :=
  match n with
  | Workflow.document_checker => True
  | Workflow.shortlisting_agent => s = "documents_verified"
  | Workflow.student_counselor => s = "shortlisted"
  | Workflow.loan_agent => s = "loan_requested"
  | Workflow.admission_officer =>
      s = "awaiting_payment" \/ s = "loan_approved" \/ s = "loan_rejected"
  end.

(** The name under which [create_admission_workflow] adds a node. *)
Definition node_name (n : Workflow.Node) : string :=
  match n with
  | Workflow.document_checker => "document_checker"
  | Workflow.shortlisting_agent => "shortlisting_agent"
  | Workflow.student_counselor => "student_counselor"
  | Workflow.loan_agent => "loan_agent"
  | Workflow.admission_officer => "admission_officer"
  end.

(** [st'] keeps what the caller supplied in [st] and only appends to its two
    logs. *)
Definition extends (st st' : AdmissionState) : Prop :=
  context st' = context st
  /\ application_id (application st') = application_id (application st)
  /\ student_name (application st') = student_name (application st)
  /\ documents (application st') = documents (application st)
  /\ communications (application st) `prefix_of` communications (application st')
  /\ history st `prefix_of` history st'.

(** The states the handlers' branches produce, by branch. *)

(** Document Checker, documents complete and credentials valid
    (document_checker.py, lines 155-174). *)
Definition verified_state (st : AdmissionState) : AdmissionState :=
  set_current_agent "shortlisting_agent"
    (append_history
       {| h_agent := DocumentChecker.name; h_action := "document_verification";
          h_fields := [("result", VStr "success");
                       ("notes", VStr "All documents verified successfully.")] |}
       (with_application
          (set_eligibility_score (Some (7 # 2))
             (set_verification_notes (Some "All documents verified successfully.")
                (set_status "documents_verified" (application st))))
          st)).

(** The program a handler reads from the context. *)
Definition program_of (st : AdmissionState) : PyVal :=
  context_get st "program" (VStr "Computer Science").

(** Shortlisting Agent, no capacity (shortlisting_agent.py, lines 152-166). *)
Definition capacity_rejected_state (w : World) (st : AdmissionState)
  : AdmissionState :=
  ShortlistingAgent.rejection
    ("Application rejected: No capacity available in the "
     +:+ str_value w (program_of st) +:+ " program") st.

(** Shortlisting Agent, shortlisted (lines 168-189). *)
Definition shortlisted_state (w : World) (st : AdmissionState) : AdmissionState :=
  let rank_score := ShortlistingAgent.rank_application w (application st) in
  let shortlisting_notes :=
    "Application shortlisted with rank score: " +:+ format_2f w rank_score in
  set_current_agent "student_counselor"
    (append_history
       {| h_agent := ShortlistingAgent.name; h_action := "application_shortlisting";
          h_fields := [("rank_score", VFloat rank_score);
                       ("notes", VStr shortlisting_notes)] |}
       (with_application
          (set_shortlisting_notes (Some shortlisting_notes)
             (set_status "shortlisted" (application st))) st)).

(** Student Counselor, loan requested (student_counselor.py, lines 147-170)
    and not requested (lines 171-194). *)
Definition loan_informed_state (w : World) (st : AdmissionState) : AdmissionState :=
  set_current_agent "loan_agent"
    (append_history loan_information_sent_entry
       (with_application
          (set_status "loan_requested"
             (append_communication (loan_information w)
                (append_communication (shortlist_notification w st)
                   (application st)))) st)).

Definition payment_instructed_state (w : World) (st : AdmissionState)
  : AdmissionState :=
  set_current_agent "admission_officer"
    (append_history payment_instructions_sent_entry
       (with_application
          (set_status "awaiting_payment"
             (append_communication (payment_instructions w st)
                (append_communication (shortlist_notification w st)
                   (application st)))) st)).

(** Loan Agent, approved (loan_agent.py, lines 179-200) and rejected
    (lines 201-222). *)
Definition loan_approved_state (w : World) (ld : LoanDetails) (st : AdmissionState)
  : AdmissionState :=
  set_current_agent "admission_officer"
    (append_history (loan_approval_entry ld)
       (with_application
          (set_status "loan_approved"
             (append_communication (loan_approval_letter w st ld)
                (set_loan_details (Some ld) (application st)))) st)).

Definition loan_rejected_state (w : World) (ld : LoanDetails) (st : AdmissionState)
  : AdmissionState :=
  set_current_agent "admission_officer"
    (append_history (loan_rejection_entry ld)
       (with_application
          (set_status "loan_rejected"
             (append_communication (loan_rejection_letter w st ld)
                (set_loan_details (Some ld) (application st)))) st)).

(** Admission Officer: payment recorded (admission_officer.py, lines 169-187),
    admission finalized (lines 189-198), reminder sent (lines 200-231). *)
Definition paid_state (st : AdmissionState) : AdmissionState :=
  append_history payment_received_entry
    (with_application
       (set_status "payment_completed"
          (set_payment_details (Some assumed_payment) (application st))) st).

Definition finalized_state (w : World) (st : AdmissionState) : AdmissionState :=
  append_history admission_finalized_entry
    (with_application
       (AdmissionOfficer.finalize_admission w (application st) (program_of st)) st).

Definition reminded_state (w : World) (st : AdmissionState) : AdmissionState :=
  append_history payment_reminder_entry
    (with_application
       (set_status "awaiting_payment"
          (append_communication (payment_reminder w st) (application st))) st).

(** The ways a run from the entry point can end, with the handlers run and
    the state returned, for a start state [st]. *)
Inductive Outcome (w : World) (st : AdmissionState)
  : list Workflow.Node -> AdmissionState -> Prop :=
| documents_refused (notes : string) :
    Outcome w st [Workflow.document_checker]
      (DocumentChecker.rejection notes st)
| capacity_refused :
    ShortlistingAgent.check_program_availability w (program_of st) = Ok false ->
    Outcome w st [Workflow.document_checker; Workflow.shortlisting_agent]
      (capacity_rejected_state w (verified_state st))
| admitted_on_payment :
    loan_requested_flag st = false ->
    Outcome w st
      [Workflow.document_checker; Workflow.shortlisting_agent;
       Workflow.student_counselor; Workflow.admission_officer]
      (finalized_state w
         (paid_state
            (payment_instructed_state w
               (shortlisted_state w (verified_state st)))))
| admitted_on_loan (ld : LoanDetails) :
    loan_requested_flag st = true ->
    LoanAgent.calculate_eligibility w (application st) = Ok ld ->
    eligible ld = true ->
    Outcome w st
      [Workflow.document_checker; Workflow.shortlisting_agent;
       Workflow.student_counselor; Workflow.loan_agent;
       Workflow.admission_officer]
      (finalized_state w
         (loan_approved_state w ld
            (loan_informed_state w
               (shortlisted_state w (verified_state st)))))
| loan_refused (ld : LoanDetails) :
    loan_requested_flag st = true ->
    LoanAgent.calculate_eligibility w (application st) = Ok ld ->
    eligible ld = false ->
    Outcome w st
      [Workflow.document_checker; Workflow.shortlisting_agent;
       Workflow.student_counselor; Workflow.loan_agent;
       Workflow.admission_officer]
      (reminded_state w
         (loan_rejected_state w ld
            (loan_informed_state w
               (shortlisted_state w (verified_state st))))).

(** * Properties *)

(** ** Status guards *)

Lemma status_eqb_false (s t : string) : s <> t -> String.eqb s t = false.
Proof. intros Hne. now apply String.eqb_neq. Qed.

(** The three handlers that open with [if application.status != ...: return state]
    hand back the state they were given. *)

Lemma shortlisting_pass_through (w : World) (st : AdmissionState) :
  status (application st) <> "documents_verified" ->
  ShortlistingAgent.process w st = Ok st.
Proof.
  intros Hne. unfold ShortlistingAgent.process.
  now rewrite (status_eqb_false _ _ Hne).
Qed.

Lemma counselor_pass_through (w : World) (st : AdmissionState) :
  status (application st) <> "shortlisted" ->
  StudentCounselor.process w st = st.
Proof.
  intros Hne. unfold StudentCounselor.process.
  now rewrite (status_eqb_false _ _ Hne).
Qed.

Lemma loan_pass_through (w : World) (st : AdmissionState) :
  status (application st) <> "loan_requested" ->
  LoanAgent.process w st = Ok st.
Proof.
  intros Hne. unfold LoanAgent.process.
  now rewrite (status_eqb_false _ _ Hne).
Qed.

(** The Admission Officer has no guard; none of its three conditions holds
    outside its four statuses. *)
Lemma officer_pass_through (w : World) (st : AdmissionState) :
  status (application st) <> "awaiting_payment" ->
  status (application st) <> "payment_completed" ->
  status (application st) <> "loan_approved" ->
  status (application st) <> "loan_rejected" ->
  AdmissionOfficer.process w st = st.
Proof.
  intros H1 H2 H3 H4.
  unfold AdmissionOfficer.process, AdmissionOfficer.payment_branch.
  rewrite (status_eqb_false _ _ H1).
  unfold AdmissionOfficer.finalize_branch.
  rewrite (status_eqb_false _ _ H2), (status_eqb_false _ _ H3). cbn [orb].
  unfold AdmissionOfficer.reminder_branch.
  now rewrite (status_eqb_false _ _ H4).
Qed.

(** ** Admission Officer *)

(** The three branches, each under its condition. *)

Lemma payment_branch_awaiting (st : AdmissionState) :
  status (application st) = "awaiting_payment" ->
  AdmissionOfficer.payment_branch st
  = append_history payment_received_entry
      (with_application
         (set_status "payment_completed"
            (set_payment_details (Some assumed_payment) (application st))) st).
Proof.
  intros Hst. unfold AdmissionOfficer.payment_branch. now rewrite Hst.
Qed.

Lemma payment_branch_other (st : AdmissionState) :
  status (application st) <> "awaiting_payment" ->
  AdmissionOfficer.payment_branch st = st.
Proof.
  intros Hne. unfold AdmissionOfficer.payment_branch.
  now rewrite (status_eqb_false _ _ Hne).
Qed.

Lemma finalize_branch_ready (w : World) (program : PyVal) (st : AdmissionState) :
  status (application st) = "payment_completed"
  \/ status (application st) = "loan_approved" ->
  AdmissionOfficer.finalize_branch w program st
  = append_history admission_finalized_entry
      (with_application
         (AdmissionOfficer.finalize_admission w (application st) program) st).
Proof.
  intros Hst. unfold AdmissionOfficer.finalize_branch.
  destruct Hst as [-> | ->]; reflexivity.
Qed.

Lemma finalize_branch_other (w : World) (program : PyVal) (st : AdmissionState) :
  status (application st) <> "payment_completed" ->
  status (application st) <> "loan_approved" ->
  AdmissionOfficer.finalize_branch w program st = st.
Proof.
  intros H1 H2. unfold AdmissionOfficer.finalize_branch.
  now rewrite (status_eqb_false _ _ H1), (status_eqb_false _ _ H2).
Qed.

Lemma reminder_branch_rejected (w : World) (st : AdmissionState) :
  status (application st) = "loan_rejected" ->
  AdmissionOfficer.reminder_branch w st
  = append_history payment_reminder_entry
      (with_application
         (set_status "awaiting_payment"
            (append_communication (payment_reminder w st) (application st))) st).
Proof.
  intros Hst. unfold AdmissionOfficer.reminder_branch. now rewrite Hst.
Qed.

Lemma reminder_branch_other (w : World) (st : AdmissionState) :
  status (application st) <> "loan_rejected" ->
  AdmissionOfficer.reminder_branch w st = st.
Proof.
  intros Hne. unfold AdmissionOfficer.reminder_branch.
  now rewrite (status_eqb_false _ _ Hne).
Qed.




(** ** The graph is a pipeline *)

(** Every edge leads to a node further down the pipeline. *)
Lemma next_moves_forward (n m : Workflow.Node) (st : AdmissionState) :
  Workflow.next n st = Workflow.Goto m ->
  (Workflow.rank n < Workflow.rank m)%nat.
Proof.
  destruct n; cbn [Workflow.next];
    repeat match goal with
      | |- context [if ?b then _ else _] => destruct b
      end;
    intros Hnext; inversion Hnext; subst; cbn; lia.
Qed.

(** A run started at [n] runs [n] first and then only nodes further down:
    no node runs twice. *)
Lemma run_trace_increasing (w : World) (fuel : nat) :
  forall (n : Workflow.Node) (st : AdmissionState)
         (trace : list Workflow.Node) (final : AdmissionState),
    Workflow.run w fuel n st = Ok (trace, final) ->
    (exists tl, trace = n :: tl) /\ StronglySorted before trace.
Proof.
  induction fuel as [|fuel IH]; intros n st trace final Hrun;
    cbn [Workflow.run] in Hrun; [discriminate|].
  destruct (Workflow.node_process w n st) as [st'|e]; cbn [bind] in Hrun;
    [|discriminate].
  destruct (Workflow.next n st') as [m|] eqn:Hnext.
  - destruct (Workflow.run w fuel m st') as [[tr fin]|e] eqn:Hrest;
      cbn [bind fst snd] in Hrun; [|discriminate].
    inversion Hrun; subst; clear Hrun.
    destruct (IH _ _ _ _ Hrest) as [[tl ->] Hsorted].
    split; [now exists (m :: tl)|].
    constructor; [exact Hsorted|].
    pose proof (next_moves_forward _ _ _ Hnext) as Hnm.
    apply StronglySorted_inv in Hsorted as [_ Htl].
    constructor; [exact Hnm|].
    eapply Forall_impl; [exact Htl|].
    intros x Hx. unfold before in *. lia.
  - inversion Hrun; subst. split; [now exists []|].
    repeat constructor.
Qed.

(** C1 (amended): on a loan-rejected application the Admission Officer sends
    the payment reminder and puts the status back to awaiting_payment, and
    the workflow then ends: the edge out of admission_officer is END.  The
    graph has no back-edge at all: every edge goes to a node further down
    the pipeline, so a run never executes a node twice. *)
Theorem C1_no_back_edge (w : World) (st : AdmissionState) :
  status (application st) = "loan_rejected" ->
  let st' := AdmissionOfficer.process w st in
  status (application st') = "awaiting_payment"
  /\ communications (application st')
     = communications (application st) ++ [payment_reminder w st]
  /\ history st' = history st ++ [payment_reminder_entry]
  /\ Workflow.next Workflow.admission_officer st' = Workflow.END
  /\ (forall n s m, Workflow.next n s = Workflow.Goto m ->
                    (Workflow.rank n < Workflow.rank m)%nat)
  /\ (forall fuel n s trace final,
        Workflow.run w fuel n s = Ok (trace, final) ->
        StronglySorted before trace).
Proof.
  intros Hst st'.
  assert (Hst' : st' = append_history payment_reminder_entry
                         (with_application
                            (set_status "awaiting_payment"
                               (append_communication (payment_reminder w st)
                                                     (application st))) st)).
  { subst st'. unfold AdmissionOfficer.process.
    rewrite payment_branch_other by (rewrite Hst; discriminate).
    rewrite finalize_branch_other by (rewrite Hst; discriminate).
    now apply reminder_branch_rejected. }
  rewrite Hst'. cbn.
  repeat split.
  - intros n s m. apply next_moves_forward.
  - intros fuel n s trace final Hrun.
    now destruct (run_trace_increasing _ _ _ _ _ _ Hrun).
Qed.

Lemma C1_no_back_edge_witness :
  status (application (Examples.state_with "loan_rejected" ∅ ∅)) = "loan_rejected"
  /\ Workflow.next Workflow.admission_officer
       (AdmissionOfficer.process Examples.w0
          (Examples.state_with "loan_rejected" ∅ ∅))
     = Workflow.END.
Proof.
  split; [reflexivity|].
  exact (proj1 (proj2 (proj2 (proj2
           (C1_no_back_edge Examples.w0
              (Examples.state_with "loan_rejected" ∅ ∅) eq_refl))))).
Defined.

(** C1 as the specification states it fails: after the reminder the
    application is not routed to the Admission Officer again.  Started at
    admission_officer on a loan-rejected application, the run executes that
    one node and stops with status awaiting_payment; and a whole run in
    which the loan is refused executes the Admission Officer once. *)
Lemma C1_counterexample :
  status (application (Examples.state_with "loan_rejected" ∅ ∅)) = "loan_rejected"
  /\ status (application
               (AdmissionOfficer.process Examples.w0
                  (Examples.state_with "loan_rejected" ∅ ∅)))
     = "awaiting_payment"
  /\ Workflow.next Workflow.admission_officer
       (AdmissionOfficer.process Examples.w0
          (Examples.state_with "loan_rejected" ∅ ∅))
     <> Workflow.Goto Workflow.admission_officer
  /\ Workflow.run Examples.w0 25 Workflow.admission_officer
       (Examples.state_with "loan_rejected" ∅ ∅)
     = Ok ([Workflow.admission_officer],
           AdmissionOfficer.process Examples.w0
             (Examples.state_with "loan_rejected" ∅ ∅))
  /\ exists final,
       Workflow.process_application Examples.w_poor
         (Examples.data_with (Examples.all_documents "file.pdf")
                             Examples.loan_context)
       = Ok ([Workflow.document_checker; Workflow.shortlisting_agent;
              Workflow.student_counselor; Workflow.loan_agent;
              Workflow.admission_officer], final)
       /\ status (application final) = "awaiting_payment".
Proof.
  split; [reflexivity|].
  split; [reflexivity|].
  split; [discriminate|].
  split; [reflexivity|].
  eexists. split; [vm_compute; reflexivity|reflexivity].
Qed.

(** ** Student Counselor *)




(** ** Strings *)

Lemma append_cons (x : ascii) (a b : string) :
  String x a +:+ b = String x (a +:+ b).
Proof. reflexivity. Qed.

Lemma append_empty_l (b : string) : EmptyString +:+ b = b.
Proof. reflexivity. Qed.

Lemma append_assoc (a b c : string) : (a +:+ b) +:+ c = a +:+ (b +:+ c).
Proof.
  induction a as [|x a IH]; [reflexivity|].
  now rewrite !append_cons, IH.
Qed.

Lemma append_empty_r (a : string) : a +:+ EmptyString = a.
Proof.
  induction a as [|x a IH]; [reflexivity|].
  now rewrite append_cons, IH.
Qed.

Lemma strip_prefix_append (sub rest : string) :
  strip_prefix sub (sub +:+ rest) = Some rest.
Proof.
  induction sub as [|x sub IH]; [reflexivity|].
  rewrite append_cons. cbn [strip_prefix].
  now rewrite Ascii.eqb_refl.
Qed.

Lemma contains_unfold (sub s : string) :
  contains sub s
  = match strip_prefix sub s with
    | Some _ => true
    | None => match s with
              | EmptyString => false
              | String _ r => contains sub r
              end
    end.
Proof. destruct s; reflexivity. Qed.

Lemma contains_append (pre sub post : string) :
  contains sub (pre +:+ (sub +:+ post)) = true.
Proof.
  induction pre as [|x pre IH].
  - rewrite append_empty_l, contains_unfold.
    now rewrite strip_prefix_append.
  - rewrite append_cons, contains_unfold.
    destruct (strip_prefix sub _); [reflexivity | exact IH].
Qed.

(** [sep.join(l)] shows every element of [l]. *)
Lemma concat_shows (sep d : string) (l : list string) :
  In d l -> exists pre post, String.concat sep l = pre +:+ (d +:+ post).
Proof.
  induction l as [|x l IH]; intros Hin; [destruct Hin|].
  destruct Hin as [-> | Hin].
  - destruct l as [|y l].
    + exists EmptyString, EmptyString.
      now rewrite append_empty_l, append_empty_r.
    + exists EmptyString, (sep +:+ String.concat sep (y :: l)). reflexivity.
  - destruct (IH Hin) as (pre & post & Heq).
    destruct l as [|y l]; [destruct Hin|].
    exists (x +:+ (sep +:+ pre)), post.
    change (String.concat sep (x :: y :: l))
      with (x +:+ (sep +:+ String.concat sep (y :: l))).
    now rewrite Heq, !append_assoc.
Qed.

(** ** Document Checker *)

Lemma has_document_true (documents : gmap string string) (d : string) :
  DocumentChecker.has_document documents d = true <-> is_Some (documents !! d).
Proof.
  unfold DocumentChecker.has_document.
  destruct (documents !! d) as [v|]; split; intros H;
    try reflexivity; try discriminate; [now exists v | now destruct H].
Qed.

Lemma has_document_false (documents : gmap string string) (d : string) :
  DocumentChecker.has_document documents d = false <-> documents !! d = None.
Proof.
  unfold DocumentChecker.has_document.
  destruct (documents !! d); split; intros H; congruence.
Qed.

Lemma missing_docs_of_completeness (h : string -> bool) (l : list string) :
  DocumentChecker.missing_docs (map (fun d => (d, h d)) l)
  = List.filter (fun d => negb (h d)) l.
Proof.
  unfold DocumentChecker.missing_docs.
  induction l as [|x l IH]; cbn; [reflexivity|].
  destruct (h x); cbn; now rewrite IH.
Qed.

Lemma all_present_of_completeness (h : string -> bool) (l : list string) :
  forallb snd (map (fun d => (d, h d)) l) = true
  <-> (forall d, In d l -> h d = true).
Proof.
  induction l as [|x l IH]; cbn.
  - split; [intros _ d [] | reflexivity].
  - rewrite andb_true_iff, IH. split.
    + intros [Hx Hl] d [<- | Hd]; auto.
    + intros H. split; [apply H; now left | intros d Hd; apply H; now right].
Qed.

Lemma all_present_iff (documents : gmap string string) :
  forallb snd (DocumentChecker.check_document_completeness documents) = true
  <-> (forall d, In d DocumentChecker.required_documents ->
                 is_Some (documents !! d)).
Proof.
  unfold DocumentChecker.check_document_completeness.
  rewrite all_present_of_completeness.
  split; intros H d Hd; apply has_document_true; auto.
Qed.

(** What the handler does when a document is missing. *)
Lemma process_missing (w : World) (st : AdmissionState) :
  forallb snd (DocumentChecker.check_document_completeness
                 (documents (application st))) = false ->
  DocumentChecker.process w st
  = Ok (DocumentChecker.rejection
          ("Missing documents: "
           +:+ String.concat ", " (missing_types (documents (application st))))
          st).
Proof.
  intros Hall. unfold DocumentChecker.process. rewrite Hall. cbn [negb].
  unfold DocumentChecker.check_document_completeness.
  now rewrite missing_docs_of_completeness.
Qed.

(** What the handler does when the five documents are there. *)
Lemma process_complete (w : World) (st : AdmissionState) :
  forallb snd (DocumentChecker.check_document_completeness
                 (documents (application st))) = true ->
  DocumentChecker.process w st
  = let? credentials_result :=
      DocumentChecker.validate_academic_credentials w
        DocumentChecker.transcript_text in
    if DocumentChecker.is_valid credentials_result then
      Ok (set_current_agent "shortlisting_agent"
            (append_history
               {| h_agent := DocumentChecker.name;
                  h_action := "document_verification";
                  h_fields :=
                    [("result", VStr "success");
                     ("notes", VStr "All documents verified successfully.")] |}
               (with_application
                  (set_eligibility_score (DocumentChecker.gpa credentials_result)
                     (set_verification_notes
                        (Some "All documents verified successfully.")
                        (set_status "documents_verified" (application st))))
                  st)))
    else
      Ok (DocumentChecker.rejection
            ("Academic credentials do not meet requirements. GPA: "
             +:+ DocumentChecker.repr_opt_float w
                   (DocumentChecker.gpa credentials_result)
             +:+ ", Required GPA: "
             +:+ repr_float w (DocumentChecker.min_gpa_required credentials_result))
            st).
Proof.
  intros Hall. unfold DocumentChecker.process. rewrite Hall. cbn [negb].
  destruct (DocumentChecker.validate_academic_credentials w _) as [cr|e];
    cbn [bind]; [|reflexivity].
  now destruct (DocumentChecker.is_valid cr).
Qed.

(** [is_valid] is the comparison of the extracted value with the threshold. *)
Lemma is_valid_spec (w : World) (text : string) (cr : DocumentChecker.Credentials) :
  DocumentChecker.validate_academic_credentials w text = Ok cr ->
  DocumentChecker.is_valid cr
  = match DocumentChecker.gpa cr with
    | Some g => Qle_bool (DocumentChecker.min_gpa_required cr) g
    | None => false
    end.
Proof.
  unfold DocumentChecker.validate_academic_credentials. intros H.
  destruct (match re_search gpa_pattern text with
            | Some g => let? v := parse_float g in Ok (Some v)
            | None => Ok None
            end) as [g|e]; cbn [bind] in H; [|discriminate].
  destruct (match search w "eligibility criteria" with
            | Some t => _
            | None => _
            end) as [m|e]; cbn [bind] in H; [|discriminate].
  inversion H; subst; reflexivity.
Qed.

Lemma gpa_of_transcript :
  re_search gpa_pattern DocumentChecker.transcript_text = Some "3.5".
Proof. vm_compute. reflexivity. Qed.

Lemma parse_float_gpa : parse_float "3.5" = Ok (7 # 2).
Proof. vm_compute. reflexivity. Qed.

(** On the simulated transcript the extracted value is 3.5, whatever the
    world; the threshold is the one the Shortlisting Agent reads too. *)
Lemma validate_transcript (w : World) :
  DocumentChecker.validate_academic_credentials w DocumentChecker.transcript_text
  = let? m := ShortlistingAgent.get_eligibility_criteria w in
    Ok {| DocumentChecker.gpa := Some (7 # 2);
          DocumentChecker.min_gpa_required := m;
          DocumentChecker.is_valid := Qle_bool m (7 # 2) |}.
Proof.
  unfold DocumentChecker.validate_academic_credentials.
  rewrite gpa_of_transcript, parse_float_gpa. cbn [bind].
  unfold ShortlistingAgent.get_eligibility_criteria.
  destruct (search w "eligibility criteria") as [text|]; [|reflexivity].
  destruct (re_search min_gpa_pattern text) as [m|]; reflexivity.
Qed.

(** C7: the three outcomes of the Document Checker.  If one of the five
    required document types is missing, the status becomes documents_rejected
    and verification_notes is "Missing documents: " followed by the missing
    types, so it shows each of them.  If the five are there, the value
    extracted by validate_academic_credentials is compared with the threshold
    it found (3.0 when the knowledge base gives none): at or above it the
    status becomes documents_verified and the value is stored as
    eligibility_score; below it the status becomes documents_rejected. *)
Theorem C7_document_checker_outcomes (w : World) (st : AdmissionState) :
  ((exists d, In d DocumentChecker.required_documents
              /\ documents (application st) !! d = None) ->
   exists st',
     DocumentChecker.process w st = Ok st'
     /\ status (application st') = "documents_rejected"
     /\ verification_notes (application st')
        = Some ("Missing documents: "
                +:+ String.concat ", " (missing_types (documents (application st))))
     /\ forall d, In d DocumentChecker.required_documents ->
                  documents (application st) !! d = None ->
                  exists notes, verification_notes (application st') = Some notes
                                /\ contains d notes = true)
  /\ ((forall d, In d DocumentChecker.required_documents ->
                 is_Some (documents (application st) !! d)) ->
      forall cr score,
        DocumentChecker.validate_academic_credentials w
          DocumentChecker.transcript_text = Ok cr ->
        DocumentChecker.gpa cr = Some score ->
        (search w "eligibility criteria" = None ->
         DocumentChecker.min_gpa_required cr = 3 # 1)
        /\ (Qle (DocumentChecker.min_gpa_required cr) score ->
            exists st',
              DocumentChecker.process w st = Ok st'
              /\ status (application st') = "documents_verified"
              /\ eligibility_score (application st') = Some score)
        /\ (Qlt score (DocumentChecker.min_gpa_required cr) ->
            exists st',
              DocumentChecker.process w st = Ok st'
              /\ status (application st') = "documents_rejected")).
Proof.
  split.
  - intros (d0 & Hd0 & Hnone0).
    assert (Hall : forallb snd (DocumentChecker.check_document_completeness
                                  (documents (application st))) = false).
    { apply not_true_is_false. intros Hall.
      apply all_present_iff with (d := d0) in Hall; [|exact Hd0].
      rewrite Hnone0 in Hall. now destruct Hall. }
    eexists. split; [now apply process_missing|].
    split; [reflexivity|]. split; [reflexivity|].
    intros d Hd Hnone. eexists. split; [reflexivity|].
    assert (Hin : In d (missing_types (documents (application st)))).
    { apply filter_In. split; [exact Hd|].
      apply negb_true_iff. now apply has_document_false. }
    destruct (concat_shows ", " d _ Hin) as (pre & post & ->).
    rewrite <- append_assoc. apply contains_append.
  - intros Hall cr score Hcr Hscore.
    apply all_present_iff in Hall.
    pose proof (is_valid_spec _ _ _ Hcr) as Hvalid. rewrite Hscore in Hvalid.
    pose proof (process_complete w st Hall) as Hproc.
    rewrite Hcr in Hproc. cbn [bind] in Hproc.
    split; [|split].
    + intros Hkb. unfold DocumentChecker.validate_academic_credentials in Hcr.
      rewrite Hkb in Hcr.
      destruct (match re_search gpa_pattern DocumentChecker.transcript_text with
                | Some g => let? v := parse_float g in Ok (Some v)
                | None => Ok None
                end) as [g|e]; cbn [bind] in Hcr; [|discriminate].
      now inversion Hcr.
    + intros Hle. apply Qle_bool_iff in Hle.
      rewrite Hvalid, Hle in Hproc.
      eexists. split; [exact Hproc|]. split; [reflexivity|exact Hscore].
    + intros Hlt.
      assert (Hnle : Qle_bool (DocumentChecker.min_gpa_required cr) score = false).
      { apply not_true_is_false. intros Hle. apply Qle_bool_iff in Hle.
        now apply Qlt_not_le in Hlt. }
      rewrite Hvalid, Hnle in Hproc.
      eexists. split; [exact Hproc|]. reflexivity.
Qed.

(** Scenario 2 of the specification (the passport is missing) and scenario 1
    (five documents, 3.5 against the default threshold 3.0). *)
Lemma C7_document_checker_outcomes_witness :
  (exists st',
     DocumentChecker.process Examples.w0
       (Examples.state_with "new" Examples.no_passport ∅) = Ok st'
     /\ status (application st') = "documents_rejected"
     /\ verification_notes (application st')
        = Some "Missing documents: id_passport")
  /\ (exists st',
        DocumentChecker.process Examples.w0
          (Examples.state_with "new" (Examples.all_documents "file.pdf") ∅)
        = Ok st'
        /\ status (application st') = "documents_verified"
        /\ eligibility_score (application st') = Some (7 # 2)).
Proof.
  split.
  - destruct (proj1 (C7_document_checker_outcomes Examples.w0
                       (Examples.state_with "new" Examples.no_passport ∅)))
      as (st' & Hproc & Hstatus & Hnotes & _).
    { exists "id_passport". split; [cbn; tauto | vm_compute; reflexivity]. }
    exists st'. split; [exact Hproc|]. split; [exact Hstatus|].
    rewrite Hnotes. vm_compute. reflexivity.
  - assert (Hall : forall d, In d DocumentChecker.required_documents ->
                     is_Some (documents
                                (application
                                   (Examples.state_with "new"
                                      (Examples.all_documents "file.pdf") ∅))
                              !! d)).
    { intros d Hd. cbn in Hd.
      destruct Hd as [<- | [<- | [<- | [<- | [<- | []]]]]];
        vm_compute; eexists; reflexivity. }
    destruct (proj2 (C7_document_checker_outcomes Examples.w0
                       (Examples.state_with "new"
                          (Examples.all_documents "file.pdf") ∅))
                Hall
                {| DocumentChecker.gpa := Some (7 # 2);
                   DocumentChecker.min_gpa_required := 3 # 1;
                   DocumentChecker.is_valid := true |}
                (7 # 2)) as (_ & Hverified & _).
    { vm_compute. reflexivity. }
    { reflexivity. }
    apply Hverified. vm_compute. discriminate.
Defined.


(** C9: the Document Checker does not check the status it is given.  On an
    application that is already admitted (five documents on file) it verifies
    the documents again: the status goes back to documents_verified, the
    notes and the score are rewritten, a history entry is appended and the
    current agent is reset.  The other four handlers leave that state as
    it is. *)
Theorem C9_document_checker_has_no_guard :
  status (application
            (Examples.state_with "admitted" (Examples.all_documents "file.pdf") ∅))
  = "admitted"
  /\ (exists st',
        DocumentChecker.process Examples.w0
          (Examples.state_with "admitted" (Examples.all_documents "file.pdf") ∅)
        = Ok st'
        /\ status (application st') = "documents_verified"
        /\ eligibility_score (application st') = Some (7 # 2)
        /\ map h_action (history st') = ["document_verification"]
        /\ current_agent st' = "shortlisting_agent")
  /\ ShortlistingAgent.process Examples.w0
       (Examples.state_with "admitted" (Examples.all_documents "file.pdf") ∅)
     = Ok (Examples.state_with "admitted" (Examples.all_documents "file.pdf") ∅)
  /\ StudentCounselor.process Examples.w0
       (Examples.state_with "admitted" (Examples.all_documents "file.pdf") ∅)
     = Examples.state_with "admitted" (Examples.all_documents "file.pdf") ∅
  /\ LoanAgent.process Examples.w0
       (Examples.state_with "admitted" (Examples.all_documents "file.pdf") ∅)
     = Ok (Examples.state_with "admitted" (Examples.all_documents "file.pdf") ∅)
  /\ AdmissionOfficer.process Examples.w0
       (Examples.state_with "admitted" (Examples.all_documents "file.pdf") ∅)
     = Examples.state_with "admitted" (Examples.all_documents "file.pdf") ∅.
Proof.
  split; [reflexivity|].
  split.
  { eexists. split; [vm_compute; reflexivity|]. repeat split. }
  split; [now apply shortlisting_pass_through|].
  split; [now apply counselor_pass_through|].
  split; [now apply loan_pass_through|].
  now apply officer_pass_through.
Qed.

(** C10 (amended): the outcome of the Document Checker depends on which
    document types are present, not on their contents.  For two applications
    that both hold the five required types, the value that is checked is the
    3.5 of the simulated transcript, both runs end alike (same status, same
    notes, or the same exception), and: either both are verified and
    eligibility_score is 3.5 in both, or both are rejected and
    eligibility_score is left as it was.  They are verified exactly when the
    threshold is at most 3.5. *)
Theorem C10_outcome_ignores_contents (w : World) (st1 st2 : AdmissionState) :
  (forall d, In d DocumentChecker.required_documents ->
             is_Some (documents (application st1) !! d)) ->
  (forall d, In d DocumentChecker.required_documents ->
             is_Some (documents (application st2) !! d)) ->
  (forall cr,
     DocumentChecker.validate_academic_credentials w
       DocumentChecker.transcript_text = Ok cr ->
     DocumentChecker.gpa cr = Some (7 # 2))
  /\ match DocumentChecker.process w st1, DocumentChecker.process w st2 with
     | Ok r1, Ok r2 =>
         status (application r1) = status (application r2)
         /\ verification_notes (application r1)
            = verification_notes (application r2)
         /\ ((status (application r1) = "documents_verified"
              /\ eligibility_score (application r1) = Some (7 # 2)
              /\ eligibility_score (application r2) = Some (7 # 2))
             \/ (status (application r1) = "documents_rejected"
                 /\ eligibility_score (application r1)
                    = eligibility_score (application st1)
                 /\ eligibility_score (application r2)
                    = eligibility_score (application st2)))
         /\ (forall cr,
               DocumentChecker.validate_academic_credentials w
                 DocumentChecker.transcript_text = Ok cr ->
               (status (application r1) = "documents_verified"
                <-> Qle (DocumentChecker.min_gpa_required cr) (7 # 2)))
     | Raise e1, Raise e2 => e1 = e2
     | _, _ => False
     end.
Proof.
  intros Hall1 Hall2.
  apply all_present_iff in Hall1. apply all_present_iff in Hall2.
  rewrite (process_complete w st1 Hall1), (process_complete w st2 Hall2).
  rewrite validate_transcript.
  destruct (ShortlistingAgent.get_eligibility_criteria w) as [m|e];
    cbn [bind DocumentChecker.is_valid DocumentChecker.gpa
         DocumentChecker.min_gpa_required].
  - split; [intros cr Hcr; now inversion Hcr|].
    destruct (Qle_bool m (7 # 2)) eqn:Hle; cbn.
    + split; [reflexivity|]. split; [reflexivity|]. split; [left; auto|].
      intros cr Hcr. inversion Hcr; subst; cbn.
      split; [intros _; now apply Qle_bool_iff | reflexivity].
    + split; [reflexivity|]. split; [reflexivity|]. split; [right; auto|].
      intros cr Hcr. inversion Hcr; subst; cbn.
      split; [discriminate|].
      intros Hq. apply Qle_bool_iff in Hq. congruence.
  - split; [intros cr Hcr; discriminate | reflexivity].
Qed.

Lemma all_documents_present (content d : string) :
  In d DocumentChecker.required_documents ->
  is_Some (Examples.all_documents content !! d).
Proof.
  intros Hd. cbn in Hd. unfold Examples.all_documents.
  destruct Hd as [<- | [<- | [<- | [<- | [<- | []]]]]];
    exists content; now simplify_map_eq.
Qed.

Lemma C10_outcome_ignores_contents_witness :
  match DocumentChecker.process Examples.w0 Examples.state_a,
        DocumentChecker.process Examples.w0 Examples.state_b with
  | Ok r1, Ok r2 =>
      status (application r1) = status (application r2)
      /\ verification_notes (application r1)
         = verification_notes (application r2)
      /\ ((status (application r1) = "documents_verified"
           /\ eligibility_score (application r1) = Some (7 # 2)
           /\ eligibility_score (application r2) = Some (7 # 2))
          \/ (status (application r1) = "documents_rejected"
              /\ eligibility_score (application r1)
                 = eligibility_score (application Examples.state_a)
              /\ eligibility_score (application r2)
                 = eligibility_score (application Examples.state_b)))
      /\ (forall cr,
            DocumentChecker.validate_academic_credentials Examples.w0
              DocumentChecker.transcript_text = Ok cr ->
            (status (application r1) = "documents_verified"
             <-> Qle (DocumentChecker.min_gpa_required cr) (7 # 2)))
  | Raise e1, Raise e2 => e1 = e2
  | _, _ => False
  end.
Proof.
  exact (proj2 (C10_outcome_ignores_contents Examples.w0
                  Examples.state_a Examples.state_b
                  (all_documents_present "transcript-a.pdf")
                  (all_documents_present "something-else.docx"))).
Defined.

(** C10 as stated fails where the knowledge base asks for more than
    3.5: two applications with the five documents are both rejected, and
    eligibility_score is not set in either run. *)
Lemma C10_counterexample :
  (forall d, In d DocumentChecker.required_documents ->
             is_Some (documents (application Examples.state_a) !! d))
  /\ (forall d, In d DocumentChecker.required_documents ->
                is_Some (documents (application Examples.state_b) !! d))
  /\ ShortlistingAgent.get_eligibility_criteria Examples.w_strict = Ok (19 # 5)
  /\ exists r1 r2,
       DocumentChecker.process Examples.w_strict Examples.state_a = Ok r1
       /\ DocumentChecker.process Examples.w_strict Examples.state_b = Ok r2
       /\ status (application r1) = "documents_rejected"
       /\ status (application r2) = "documents_rejected"
       /\ eligibility_score (application r1) = None
       /\ eligibility_score (application r2) = None.
Proof.
  split; [apply all_documents_present|].
  split; [apply all_documents_present|].
  split; [vm_compute; reflexivity|].
  eexists. eexists.
  split; [vm_compute; reflexivity|].
  split; [vm_compute; reflexivity|].
  repeat split.
Qed.

(** ** Loan Agent *)

(** The captured group of a match lies in the pattern's class. *)
Lemma span_class (p : ascii -> bool) (s g r : string) :
  span p s = (g, r) -> forall a, In a (list_ascii_of_string g) -> p a = true.
Proof.
  revert g r. induction s as [|x s IH]; intros g r Hspan; cbn in Hspan.
  - inversion Hspan; subst. intros a [].
  - destruct (p x) eqn:Hx.
    + destruct (span p s) as [g' r'] eqn:Hs. inversion Hspan; subst.
      intros a [<- | Ha]; [exact Hx | eapply IH; [reflexivity | exact Ha]].
    + inversion Hspan; subst. intros a [].
Qed.

Lemma match_here_class (p : Pattern) (s g : string) :
  match_here p s = Some g ->
  forall a, In a (list_ascii_of_string g) -> p_class p a = true.
Proof.
  unfold match_here. intros Hm.
  destruct (strip_prefix (p_prefix p) s) as [r|]; [|discriminate].
  destruct (span (p_class p) (if p_spaces p then snd (span is_space r) else r))
    as [g' tl] eqn:Hspan.
  destruct g' as [|x g']; [discriminate|].
  destruct (strip_prefix (p_suffix p) tl); [|discriminate].
  inversion Hm; subst. now apply (span_class _ _ _ _ Hspan).
Qed.

Lemma re_search_class (p : Pattern) (s g : string) :
  re_search p s = Some g ->
  forall a, In a (list_ascii_of_string g) -> p_class p a = true.
Proof.
  induction s as [|x s IH]; cbn [re_search]; intros Hs.
  - destruct (match_here p EmptyString) eqn:Hm; [|discriminate].
    inversion Hs; subst. now apply (match_here_class _ _ _ Hm).
  - destruct (match_here p (String x s)) eqn:Hm.
    + inversion Hs; subst. now apply (match_here_class _ _ _ Hm).
    + now apply IH.
Qed.

Lemma is_digit_value (a : ascii) :
  is_digit a = true -> 0 <= Z.of_N (N_of_ascii a) - 48.
Proof.
  unfold is_digit. intros H. apply andb_true_iff in H as [H _].
  apply N.leb_le in H. lia.
Qed.

Lemma digits_value_nonneg (s : string) :
  (forall a, In a (list_ascii_of_string s) -> is_digit a = true) ->
  forall acc, 0 <= acc -> 0 <= digits_value acc s.
Proof.
  induction s as [|x s IH]; intros Hs acc Hacc; cbn [digits_value];
    [exact Hacc|].
  apply IH; [intros a Ha; apply Hs; now right|].
  pose proof (is_digit_value x (Hs x (or_introl eq_refl))). lia.
Qed.

Lemma remove_commas_digits (s : string) :
  (forall a, In a (list_ascii_of_string s) -> is_digit_or_comma a = true) ->
  forall a, In a (list_ascii_of_string (remove_commas s)) -> is_digit a = true.
Proof.
  induction s as [|x s IH]; intros Hs a Ha; cbn [remove_commas] in Ha;
    [destruct Ha|].
  assert (Hrest : forall b, In b (list_ascii_of_string s) ->
                            is_digit_or_comma b = true)
    by (intros b Hb; apply Hs; now right).
  destruct (Ascii.eqb x ",") eqn:Hx.
  - now apply IH.
  - destruct Ha as [<- | Ha]; [|now apply IH].
    specialize (Hs x (or_introl eq_refl)). unfold is_digit_or_comma in Hs.
    rewrite Hx in Hs. now rewrite orb_false_r in Hs.
Qed.

(** The maximum loan amount of the policies is never negative. *)
Lemma max_loan_amount_nonneg (w : World) (pol : LoanAgent.Policies) :
  LoanAgent.get_loan_policies w = Ok pol ->
  0 <= LoanAgent.max_loan_amount pol.
Proof.
  unfold LoanAgent.get_loan_policies. intros Hpol.
  destruct (search w "loan policy") as [text|];
    [|inversion Hpol; subst; cbn; lia].
  destruct (re_search max_loan_pattern text) as [m|] eqn:Hm.
  - unfold parse_int in Hpol.
    pose proof (remove_commas_digits m (re_search_class _ _ _ Hm)) as Hdigits.
    destruct (remove_commas m) as [|x ds] eqn:Hds; cbn [bind] in Hpol;
      [discriminate|].
    destruct (match re_search interest_pattern text with
              | Some i => parse_float i
              | None => Ok (LoanAgent.policy_interest_rate LoanAgent.default_policies)
              end) as [i|e]; cbn [bind] in Hpol; [|discriminate].
    inversion Hpol; subst; cbn [LoanAgent.max_loan_amount].
    change (0 <= digits_value 0 (String x ds)).
    apply digits_value_nonneg; [exact Hdigits | lia].
  - cbn [bind] in Hpol.
    destruct (match re_search interest_pattern text with
              | Some i => parse_float i
              | None => Ok (LoanAgent.policy_interest_rate LoanAgent.default_policies)
              end) as [i|e]; cbn [bind] in Hpol; [|discriminate].
    inversion Hpol; subst; cbn; lia.
Qed.

(** The two income and credit thresholds are the defaults in every case. *)
Lemma policy_thresholds (w : World) (pol : LoanAgent.Policies) :
  LoanAgent.get_loan_policies w = Ok pol ->
  LoanAgent.minimum_income_requirement pol = 25000
  /\ LoanAgent.credit_score_requirement pol = 650.
Proof.
  unfold LoanAgent.get_loan_policies. intros Hpol.
  destruct (search w "loan policy") as [text|];
    [|inversion Hpol; subst; now cbn].
  destruct (match re_search max_loan_pattern text with
            | Some m => parse_int m
            | None => Ok (LoanAgent.max_loan_amount LoanAgent.default_policies)
            end) as [m|e]; cbn [bind] in Hpol; [|discriminate].
  destruct (match re_search interest_pattern text with
            | Some i => parse_float i
            | None => Ok (LoanAgent.policy_interest_rate LoanAgent.default_policies)
            end) as [i|e]; cbn [bind] in Hpol; [|discriminate].
  inversion Hpol; subst; now cbn.
Qed.




(** ** The engine *)

(** The statuses a handler leaves behind. *)





(** The exceptions of the handlers: a [ValueError] of [float] or [int], a
    [TypeError] of the shortlisting comparison or lookup. *)

Lemma parse_float_raises (s : string) (e : PyExn) :
  parse_float s = Raise e -> e = ValueError.
Proof.
  unfold parse_float.
  destruct (span is_digit s) as [ip rest].
  destruct rest as [|dot fp].
  - destruct ip; intros H; now inversion H.
  - destruct (span is_digit fp) as [fd tl].
    destruct tl; [|intros H; now inversion H].
    destruct (ip +:+ fd); intros H; now inversion H.
Qed.

Lemma parse_int_raises (s : string) (e : PyExn) :
  parse_int s = Raise e -> e = ValueError.
Proof.
  unfold parse_int. destruct (remove_commas s); intros H; now inversion H.
Qed.

Lemma criteria_raises (w : World) (e : PyExn) :
  ShortlistingAgent.get_eligibility_criteria w = Raise e -> e = ValueError.
Proof.
  unfold ShortlistingAgent.get_eligibility_criteria.
  destruct (search w "eligibility criteria") as [text|]; [|discriminate].
  destruct (re_search min_gpa_pattern text) as [m|]; [|discriminate].
  apply parse_float_raises.
Qed.








(** C3: invoking the workflow again on a terminal state is not a no-op.  The
    graph is entered at document_checker, which has no status guard, so the
    pipeline runs once more on the state a first run returned: the admitted
    application is verified, shortlisted, counselled and admitted a second
    time (eight communications and ten history entries instead of four and
    five); the application rejected for want of capacity and the one rejected
    for a missing passport are rejected again, with their history doubled. *)
Theorem C3_rerun_at_terminal_state :
  (exists trace1 final1 trace2 final2,
     Workflow.process_application Examples.w0
       (Examples.data_with (Examples.all_documents "file.pdf") ∅)
     = Ok (trace1, final1)
     /\ status (application final1) = "admitted"
     /\ terminal_status (status (application final1)) = true
     /\ Workflow.invoke Examples.w0 Workflow.default_recursion_limit final1
        = Ok (trace2, final2)
     /\ trace2 = [Workflow.document_checker; Workflow.shortlisting_agent;
                  Workflow.student_counselor; Workflow.admission_officer]
     /\ length (communications (application final1)) = 4%nat
     /\ length (communications (application final2)) = 8%nat
     /\ length (history final1) = 5%nat
     /\ length (history final2) = 10%nat
     /\ final2 <> final1)
  /\ (exists trace1 final1 trace2 final2,
        Workflow.process_application Examples.w0
          (Examples.data_with (Examples.all_documents "file.pdf")
                              Examples.unknown_program)
        = Ok (trace1, final1)
        /\ status (application final1) = "rejected"
        /\ terminal_status (status (application final1)) = true
        /\ Workflow.invoke Examples.w0 Workflow.default_recursion_limit final1
           = Ok (trace2, final2)
        /\ map h_action (history final1)
           = ["document_verification"; "application_rejection"]
        /\ map h_action (history final2)
           = ["document_verification"; "application_rejection";
              "document_verification"; "application_rejection"]
        /\ final2 <> final1)
  /\ (exists trace1 final1 trace2 final2,
        Workflow.process_application Examples.w0
          (Examples.data_with Examples.no_passport ∅)
        = Ok (trace1, final1)
        /\ status (application final1) = "documents_rejected"
        /\ terminal_status (status (application final1)) = true
        /\ Workflow.invoke Examples.w0 Workflow.default_recursion_limit final1
           = Ok (trace2, final2)
        /\ map h_action (history final1) = ["document_rejection"]
        /\ map h_action (history final2)
           = ["document_rejection"; "document_rejection"]
        /\ final2 <> final1).
Proof.
  split; [|split].
  - do 4 eexists. split; [vm_compute; reflexivity|].
    split; [reflexivity|]. split; [reflexivity|].
    split; [vm_compute; reflexivity|].
    repeat (split; [reflexivity|]).
    intros Heq. apply (f_equal (fun st => length (history st))) in Heq.
    discriminate Heq.
  - do 4 eexists. split; [vm_compute; reflexivity|].
    split; [reflexivity|]. split; [reflexivity|].
    split; [vm_compute; reflexivity|].
    repeat (split; [reflexivity|]).
    intros Heq. apply (f_equal (fun st => length (history st))) in Heq.
    discriminate Heq.
  - do 4 eexists. split; [vm_compute; reflexivity|].
    split; [reflexivity|]. split; [reflexivity|].
    split; [vm_compute; reflexivity|].
    repeat (split; [reflexivity|]).
    intros Heq. apply (f_equal (fun st => length (history st))) in Heq.
    discriminate Heq.
Qed.

Lemma unknown_status_neq (s t : string) :
  ~ In s known_statuses -> In t known_statuses -> s <> t.
Proof. intros Hs Ht ->. contradiction. Qed.

(** C4 (amended): an application whose status is none of the eleven known
    ones does not stop the workflow before the first handler: the graph is
    entered at document_checker whatever the status, so every run starts
    with that handler.  The four later handlers return such a state
    unchanged, and the conditional edges out of document_checker and
    shortlisting_agent lead to END for such a status. *)
Theorem C4_unknown_status (w : World) (st : AdmissionState) :
  ~ In (status (application st)) known_statuses ->
  (forall recursion_limit trace final,
     Workflow.invoke w recursion_limit st = Ok (trace, final) ->
     exists rest, trace = Workflow.document_checker :: rest)
  /\ ShortlistingAgent.process w st = Ok st
  /\ StudentCounselor.process w st = st
  /\ LoanAgent.process w st = Ok st
  /\ AdmissionOfficer.process w st = st
  /\ Workflow.next Workflow.document_checker st = Workflow.END
  /\ Workflow.next Workflow.shortlisting_agent st = Workflow.END.
Proof.
  intros Hunknown.
  assert (Hne : forall t, In t known_statuses -> status (application st) <> t)
    by (intros t; now apply unknown_status_neq).
  split.
  { intros recursion_limit trace final Hrun.
    now destruct (run_trace_increasing _ _ _ _ _ _ Hrun). }
  split; [apply shortlisting_pass_through, Hne; cbn; tauto|].
  split; [apply counselor_pass_through, Hne; cbn; tauto|].
  split; [apply loan_pass_through, Hne; cbn; tauto|].
  split; [apply officer_pass_through; apply Hne; cbn; tauto|].
  unfold Workflow.next.
  rewrite !status_eqb_false by (apply Hne; cbn; tauto).
  split; reflexivity.
Qed.

Lemma C4_unknown_status_witness :
  ~ In (status (application (Examples.state_with "bogus" ∅ ∅))) known_statuses
  /\ AdmissionOfficer.process Examples.w0 (Examples.state_with "bogus" ∅ ∅)
     = Examples.state_with "bogus" ∅ ∅
  /\ Workflow.next Workflow.document_checker (Examples.state_with "bogus" ∅ ∅)
     = Workflow.END.
Proof.
  assert (Hunknown : ~ In (status (application (Examples.state_with "bogus" ∅ ∅)))
                        known_statuses).
  { cbn. intros H. repeat (destruct H as [H | H]; [discriminate|]). exact H. }
  split; [exact Hunknown|].
  destruct (C4_unknown_status Examples.w0 (Examples.state_with "bogus" ∅ ∅)
              Hunknown) as (_ & _ & _ & _ & Hofficer & Hnext & _).
  split; assumption.
Defined.

(** C4 as the specification states it fails: fed the unknown status
    "bogus", the workflow invokes one handler, the Document Checker, and
    returns a different state (status documents_rejected, one history
    entry). *)
Lemma C4_counterexample :
  ~ In "bogus" known_statuses
  /\ history (Examples.state_with "bogus" ∅ ∅) = []
  /\ exists final,
       Workflow.invoke Examples.w0 Workflow.default_recursion_limit
         (Examples.state_with "bogus" ∅ ∅)
       = Ok ([Workflow.document_checker], final)
       /\ status (application final) = "documents_rejected"
       /\ map h_action (history final) = ["document_rejection"].
Proof.
  split.
  { cbn. intros H. repeat (destruct H as [H | H]; [discriminate|]). exact H. }
  split; [reflexivity|].
  eexists. split; [vm_compute; reflexivity|]. split; reflexivity.
Qed.

(** * Further properties of the pipeline *)

(** ** What a handler keeps *)

Ltac split_extends :=
  unfold extends; split; [|split; [|split; [|split; [|split]]]].

Lemma extends_refl (st : AdmissionState) : extends st st.
Proof. split_extends; reflexivity. Qed.

Lemma extends_trans (a b c : AdmissionState) :
  extends a b -> extends b c -> extends a c.
Proof.
  unfold extends.
  intros (H1 & H2 & H3 & H4 & H5 & H6) (K1 & K2 & K3 & K4 & K5 & K6).
  split_extends; try congruence; etransitivity; eassumption.
Qed.

Lemma extends_append_history (h : HistoryEntry) (st st' : AdmissionState) :
  extends st st' -> extends st (append_history h st').
Proof.
  unfold extends. intros (H1 & H2 & H3 & H4 & H5 & H6).
  split_extends; try assumption. cbn.
  etransitivity; [exact H6 | now apply prefix_app_r].
Qed.

Lemma extends_set_current_agent (v : string) (st st' : AdmissionState) :
  extends st st' -> extends st (set_current_agent v st').
Proof. unfold extends. intros H. exact H. Qed.

(** Replacing the application by one with the same identity and documents
    and a longer list of communications. *)
Lemma extends_with_application (a : ApplicationStatus) (st : AdmissionState) :
  application_id a = application_id (application st) ->
  student_name a = student_name (application st) ->
  documents a = documents (application st) ->
  communications (application st) `prefix_of` communications a ->
  extends st (with_application a st).
Proof. intros H1 H2 H3 H4. split_extends; solve [assumption | reflexivity]. Qed.

Lemma document_checker_extends (w : World) (st st' : AdmissionState) :
  DocumentChecker.process w st = Ok st' -> extends st st'.
Proof.
  intros Hproc.
  destruct (forallb snd (DocumentChecker.check_document_completeness
                           (documents (application st)))) eqn:Hall.
  - rewrite (process_complete w st Hall) in Hproc.
    destruct (DocumentChecker.validate_academic_credentials w _) as [cr|e];
      cbn [bind] in Hproc; [|discriminate].
    destruct (DocumentChecker.is_valid cr); inversion Hproc; subst.
    + apply extends_set_current_agent, extends_append_history.
      now apply extends_with_application.
    + apply extends_append_history. now apply extends_with_application.
  - rewrite (process_missing w st Hall) in Hproc. inversion Hproc; subst.
    apply extends_append_history. now apply extends_with_application.
Qed.

Lemma shortlisting_extends (w : World) (st st' : AdmissionState) :
  ShortlistingAgent.process w st = Ok st' -> extends st st'.
Proof.
  unfold ShortlistingAgent.process.
  destruct (negb _); [intros H; inversion H; apply extends_refl|].
  destruct (ShortlistingAgent.get_eligibility_criteria w) as [m|e];
    cbn [bind]; [|discriminate].
  destruct (eligibility_score (application st)) as [score|]; [|discriminate].
  destruct (negb (Qle_bool m score)).
  { intros H; inversion H. apply extends_append_history.
    now apply extends_with_application. }
  destruct (ShortlistingAgent.check_program_availability w _) as [[|]|e];
    cbn [bind negb]; intros H; inversion H.
  - apply extends_set_current_agent, extends_append_history.
    now apply extends_with_application.
  - apply extends_append_history. now apply extends_with_application.
Qed.

Lemma counselor_extends (w : World) (st : AdmissionState) :
  extends st (StudentCounselor.process w st).
Proof.
  unfold StudentCounselor.process.
  destruct (negb _); [apply extends_refl|].
  destruct (truthy _);
    apply extends_set_current_agent, extends_append_history,
          extends_with_application; try reflexivity;
    cbn; rewrite <- app_assoc; now apply prefix_app_r.
Qed.

Lemma loan_extends (w : World) (st st' : AdmissionState) :
  LoanAgent.process w st = Ok st' -> extends st st'.
Proof.
  unfold LoanAgent.process.
  destruct (negb _); [intros H; inversion H; apply extends_refl|].
  destruct (LoanAgent.calculate_eligibility w (application st)) as [ld|e];
    cbn [bind]; [|discriminate].
  intros H; inversion H.
  destruct (eligible ld);
    apply extends_set_current_agent, extends_append_history,
          extends_with_application; try reflexivity;
    cbn; now apply prefix_app_r.
Qed.

Lemma officer_extends (w : World) (st : AdmissionState) :
  extends st (AdmissionOfficer.process w st).
Proof.
  unfold AdmissionOfficer.process.
  set (program := context_get st "program" (VStr "Computer Science")).
  assert (H1 : extends st (AdmissionOfficer.payment_branch st)).
  { unfold AdmissionOfficer.payment_branch.
    destruct (String.eqb _ _); [|apply extends_refl].
    apply extends_append_history. now apply extends_with_application. }
  assert (H2 : forall s, extends s (AdmissionOfficer.finalize_branch w program s)).
  { intros s. unfold AdmissionOfficer.finalize_branch.
    destruct (_ || _); [|apply extends_refl].
    apply extends_append_history, extends_with_application; try reflexivity.
    cbn. rewrite <- app_assoc. now apply prefix_app_r. }
  assert (H3 : forall s, extends s (AdmissionOfficer.reminder_branch w s)).
  { intros s. unfold AdmissionOfficer.reminder_branch.
    destruct (String.eqb _ _); [|apply extends_refl].
    apply extends_append_history, extends_with_application; try reflexivity.
    cbn. now apply prefix_app_r. }
  eapply extends_trans; [exact H1|].
  eapply extends_trans; [apply H2 | apply H3].
Qed.

Lemma node_process_extends (w : World) (n : Workflow.Node)
    (st st' : AdmissionState) :
  Workflow.node_process w n st = Ok st' -> extends st st'.
Proof.
  destruct n; cbn [Workflow.node_process]; intros H.
  - exact (document_checker_extends _ _ _ H).
  - exact (shortlisting_extends _ _ _ H).
  - inversion H; subst. apply counselor_extends.
  - exact (loan_extends _ _ _ H).
  - inversion H; subst. apply officer_extends.
Qed.

(** X2: whatever node a run starts at and whatever state it is given, the
    state it returns has the caller's context, application id, student name
    and documents untouched, and its communications and history are those of
    the start with entries appended: no handler rewrites or drops a logged
    communication or history entry. *)
Theorem X2_run_only_appends (w : World) (fuel : nat) :
  forall (n : Workflow.Node) (st : AdmissionState)
         (trace : list Workflow.Node) (final : AdmissionState),
    Workflow.run w fuel n st = Ok (trace, final) ->
    context final = context st
    /\ application_id (application final) = application_id (application st)
    /\ student_name (application final) = student_name (application st)
    /\ documents (application final) = documents (application st)
    /\ (exists sent,
          communications (application final)
          = communications (application st) ++ sent)
    /\ (exists logged, history final = history st ++ logged).
Proof.
  induction fuel as [|fuel IH]; intros n st trace final Hrun;
    cbn [Workflow.run] in Hrun; [discriminate|].
  destruct (Workflow.node_process w n st) as [st'|e] eqn:Hnode;
    cbn [bind] in Hrun; [|discriminate].
  pose proof (node_process_extends _ _ _ _ Hnode) as Hstep.
  assert (Hall : extends st final).
  { destruct (Workflow.next n st') as [m|].
    - destruct (Workflow.run w fuel m st') as [[tr fin]|e] eqn:Hrest;
        cbn [bind fst snd] in Hrun; [|discriminate].
      inversion Hrun; subst.
      apply (extends_trans _ _ _ Hstep).
      destruct (IH _ _ _ _ Hrest) as (K1 & K2 & K3 & K4 & [cs K5] & [hs K6]).
      split_extends; try assumption.
      + now exists cs.
      + now exists hs.
    - inversion Hrun; subst. exact Hstep. }
  destruct Hall as (H1 & H2 & H3 & H4 & [cs H5] & [hs H6]).
  split; [|split; [|split; [|split; [|split]]]]; try assumption; eauto.
Qed.

Lemma X2_run_only_appends_witness :
  exists final,
    Workflow.run Examples.w0 5 Workflow.document_checker
      (Examples.state_with "new" (Examples.all_documents "file.pdf") ∅)
    = Ok ([Workflow.document_checker; Workflow.shortlisting_agent;
           Workflow.student_counselor; Workflow.admission_officer], final)
    /\ documents (application final) = Examples.all_documents "file.pdf"
    /\ context final = ∅.
Proof.
  eexists. split; [vm_compute; reflexivity|].
  match goal with
  | |- documents (application ?f) = _ /\ _ =>
      destruct (X2_run_only_appends Examples.w0 5 Workflow.document_checker
                  (Examples.state_with "new" (Examples.all_documents "file.pdf") ∅)
                  [Workflow.document_checker; Workflow.shortlisting_agent;
                   Workflow.student_counselor; Workflow.admission_officer]
                  f) as (Hc & _ & _ & Hd & _)
  end.
  { vm_compute. reflexivity. }
  split; [exact Hd | exact Hc].
Defined.

(** ** The handlers, branch by branch *)

Lemma document_checker_cases (w : World) (st st' : AdmissionState) :
  DocumentChecker.process w st = Ok st' ->
  (st' = verified_state st
   /\ forallb snd (DocumentChecker.check_document_completeness
                     (documents (application st))) = true
   /\ exists m, ShortlistingAgent.get_eligibility_criteria w = Ok m
                /\ Qle_bool m (7 # 2) = true)
  \/ (exists notes, st' = DocumentChecker.rejection notes st).
Proof.
  intros Hproc.
  destruct (forallb snd (DocumentChecker.check_document_completeness
                           (documents (application st)))) eqn:Hall.
  - rewrite (process_complete w st Hall), validate_transcript in Hproc.
    destruct (ShortlistingAgent.get_eligibility_criteria w) as [m|e];
      cbn [bind DocumentChecker.is_valid DocumentChecker.gpa] in Hproc;
      [|discriminate].
    destruct (Qle_bool m (7 # 2)) eqn:Hle; inversion Hproc; subst.
    + left. split; [reflexivity|]. split; [reflexivity|]. now exists m.
    + right. eexists. reflexivity.
  - rewrite (process_missing w st Hall) in Hproc. inversion Hproc; subst.
    right. eexists. reflexivity.
Qed.

Lemma shortlisting_cases (w : World) (st st' : AdmissionState) (m score : Q) :
  status (application st) = "documents_verified" ->
  eligibility_score (application st) = Some score ->
  ShortlistingAgent.get_eligibility_criteria w = Ok m ->
  Qle_bool m score = true ->
  ShortlistingAgent.process w st = Ok st' ->
  (ShortlistingAgent.check_program_availability w (program_of st) = Ok true
   /\ st' = shortlisted_state w st)
  \/ (ShortlistingAgent.check_program_availability w (program_of st) = Ok false
      /\ st' = capacity_rejected_state w st).
Proof.
  intros Hst Hscore Hm Hle. unfold ShortlistingAgent.process.
  rewrite Hst, Hm. cbn [String.eqb Ascii.eqb Bool.eqb negb bind].
  rewrite Hscore, Hle. cbn [negb]. fold (program_of st).
  destruct (ShortlistingAgent.check_program_availability w (program_of st))
    as [[|]|e]; cbn [bind negb]; intros H; inversion H; subst.
  - left. split; reflexivity.
  - right. split; reflexivity.
Qed.

Lemma counselor_cases (w : World) (st : AdmissionState) :
  status (application st) = "shortlisted" ->
  StudentCounselor.process w st
  = if loan_requested_flag st then loan_informed_state w st
    else payment_instructed_state w st.
Proof.
  intros Hst. unfold StudentCounselor.process, loan_requested_flag.
  rewrite Hst. cbn [String.eqb Ascii.eqb Bool.eqb negb].
  destruct (truthy _); reflexivity.
Qed.

Lemma loan_cases (w : World) (st : AdmissionState) :
  status (application st) = "loan_requested" ->
  LoanAgent.process w st
  = let? ld := LoanAgent.calculate_eligibility w (application st) in
    Ok (if eligible ld then loan_approved_state w ld st
        else loan_rejected_state w ld st).
Proof.
  intros Hst. unfold LoanAgent.process. rewrite Hst.
  cbn [String.eqb Ascii.eqb Bool.eqb negb].
  destruct (LoanAgent.calculate_eligibility w (application st)) as [ld|e];
    cbn [bind]; [|reflexivity].
  destruct (eligible ld); reflexivity.
Qed.

Lemma officer_cases (w : World) (st : AdmissionState) :
  (status (application st) = "awaiting_payment" ->
   AdmissionOfficer.process w st = finalized_state w (paid_state st))
  /\ (status (application st) = "loan_approved" ->
      AdmissionOfficer.process w st = finalized_state w st)
  /\ (status (application st) = "loan_rejected" ->
      AdmissionOfficer.process w st = reminded_state w st).
Proof.
  unfold AdmissionOfficer.process. split; [|split]; intros Hst.
  - rewrite (payment_branch_awaiting st Hst).
    rewrite finalize_branch_ready by (now left).
    now rewrite reminder_branch_other.
  - rewrite payment_branch_other by (rewrite Hst; discriminate).
    rewrite finalize_branch_ready by (now right).
    now rewrite reminder_branch_other.
  - rewrite payment_branch_other by (rewrite Hst; discriminate).
    rewrite finalize_branch_other by (rewrite Hst; discriminate).
    now rewrite reminder_branch_rejected.
Qed.

(** The two draws decide the loan; the thresholds are those of the default
    policies whatever the knowledge base says. *)
Lemma eligible_spec (w : World) (a : ApplicationStatus) (ld : LoanDetails) :
  LoanAgent.calculate_eligibility w a = Ok ld ->
  eligible ld = (25000 <=? randint_income w) && (650 <=? randint_credit w).
Proof.
  unfold LoanAgent.calculate_eligibility.
  destruct (LoanAgent.get_loan_policies w) as [pol|e] eqn:Hpol;
    cbn [bind]; [|discriminate].
  destruct (policy_thresholds w pol Hpol) as [Hi Hc].
  intros H; inversion H; subst; cbn [eligible]. now rewrite Hi, Hc.
Qed.

(** ** The engine in closed form *)

Lemma run_step (w : World) (fuel : nat) (n : Workflow.Node)
    (st : AdmissionState) :
  Workflow.run w (S fuel) n st
  = let? st' := Workflow.node_process w n st in
    match Workflow.next n st' with
    | Workflow.END => Ok ([n], st')
    | Workflow.Goto m =>
        let? r := Workflow.run w fuel m st' in Ok (n :: fst r, snd r)
    end.
Proof. reflexivity. Qed.

Lemma run_officer (w : World) (fuel : nat) (st : AdmissionState) :
  Workflow.run w (S fuel) Workflow.admission_officer st
  = Ok ([Workflow.admission_officer], AdmissionOfficer.process w st).
Proof. reflexivity. Qed.

Lemma run_loan (w : World) (fuel : nat) (st : AdmissionState) :
  Workflow.run w (S (S fuel)) Workflow.loan_agent st
  = let? st1 := LoanAgent.process w st in
    Ok ([Workflow.loan_agent; Workflow.admission_officer],
        AdmissionOfficer.process w st1).
Proof.
  cbn [Workflow.run Workflow.node_process].
  destruct (LoanAgent.process w st); reflexivity.
Qed.

Lemma run_counselor (w : World) (fuel : nat) (st : AdmissionState) :
  status (application st) = "shortlisted" ->
  Workflow.run w (S (S (S fuel))) Workflow.student_counselor st
  = if loan_requested_flag st then
      let? st1 := LoanAgent.process w (loan_informed_state w st) in
      Ok ([Workflow.student_counselor; Workflow.loan_agent;
           Workflow.admission_officer], AdmissionOfficer.process w st1)
    else
      Ok ([Workflow.student_counselor; Workflow.admission_officer],
          AdmissionOfficer.process w (payment_instructed_state w st)).
Proof.
  intros Hst.
  change (Workflow.run w (S (S (S fuel))) Workflow.student_counselor st)
    with (match Workflow.next Workflow.student_counselor
                  (StudentCounselor.process w st) with
          | Workflow.Goto m =>
              let? r := Workflow.run w (S (S fuel)) m
                          (StudentCounselor.process w st) in
              Ok (Workflow.student_counselor :: fst r, snd r)
          | Workflow.END =>
              Ok ([Workflow.student_counselor], StudentCounselor.process w st)
          end).
  rewrite (counselor_cases w st Hst).
  destruct (loan_requested_flag st).
  - change (Workflow.next Workflow.student_counselor (loan_informed_state w st))
      with (Workflow.Goto Workflow.loan_agent).
    cbv beta iota. rewrite run_loan.
    destruct (LoanAgent.process w (loan_informed_state w st)); reflexivity.
  - change (Workflow.next Workflow.student_counselor
              (payment_instructed_state w st))
      with (Workflow.Goto Workflow.admission_officer).
    cbv beta iota. now rewrite run_officer.
Qed.

(** With fuel for five nodes, a run from the entry point either raises what
    a handler raises or follows one of four paths. *)
Lemma invoke_cases (w : World) (fuel : nat) (st : AdmissionState)
    (trace : list Workflow.Node) (final : AdmissionState) :
  Workflow.invoke w (5 + fuel) st = Ok (trace, final) ->
  exists s1,
    DocumentChecker.process w st = Ok s1
    /\ ((status (application s1) <> "documents_verified"
         /\ trace = [Workflow.document_checker] /\ final = s1)
        \/ (status (application s1) = "documents_verified"
            /\ exists s2,
                 ShortlistingAgent.process w s1 = Ok s2
                 /\ ((status (application s2) <> "shortlisted"
                      /\ trace = [Workflow.document_checker;
                                  Workflow.shortlisting_agent]
                      /\ final = s2)
                     \/ (status (application s2) = "shortlisted"
                         /\ loan_requested_flag s2 = false
                         /\ trace = [Workflow.document_checker;
                                     Workflow.shortlisting_agent;
                                     Workflow.student_counselor;
                                     Workflow.admission_officer]
                         /\ final = AdmissionOfficer.process w
                                      (payment_instructed_state w s2))
                     \/ (status (application s2) = "shortlisted"
                         /\ loan_requested_flag s2 = true
                         /\ exists s4,
                              LoanAgent.process w (loan_informed_state w s2)
                              = Ok s4
                              /\ trace = [Workflow.document_checker;
                                          Workflow.shortlisting_agent;
                                          Workflow.student_counselor;
                                          Workflow.loan_agent;
                                          Workflow.admission_officer]
                              /\ final = AdmissionOfficer.process w s4)))).
Proof.
  unfold Workflow.invoke, Workflow.entry_point.
  change (5 + fuel)%nat with (S (S (S (S (S fuel))))).
  rewrite run_step. cbn [Workflow.node_process].
  destruct (DocumentChecker.process w st) as [s1|e]; cbn [bind];
    [|discriminate].
  intros Hrun. exists s1. split; [reflexivity|].
  unfold Workflow.next at 1 in Hrun.
  destruct (String.eqb (status (application s1)) "documents_verified") eqn:H1.
  2:{ left. apply String.eqb_neq in H1.
      split; [exact H1|]. split; congruence. }
  right. apply String.eqb_eq in H1. split; [exact H1|].
  rewrite run_step in Hrun. cbn [Workflow.node_process] in Hrun.
  destruct (ShortlistingAgent.process w s1) as [s2|e]; cbn [bind] in Hrun;
    [|discriminate].
  exists s2. split; [reflexivity|].
  unfold Workflow.next at 1 in Hrun.
  destruct (String.eqb (status (application s2)) "shortlisted") eqn:H2.
  2:{ left. apply String.eqb_neq in H2. cbn [bind fst snd] in Hrun.
      split; [exact H2|]. split; congruence. }
  right. apply String.eqb_eq in H2.
  rewrite (run_counselor w fuel s2 H2) in Hrun.
  destruct (loan_requested_flag s2) eqn:Hflag.
  - right. split; [exact H2|]. split; [reflexivity|].
    destruct (LoanAgent.process w (loan_informed_state w s2)) as [s4|e];
      cbn [bind fst snd] in Hrun; [|discriminate].
    exists s4. split; [reflexivity|]. split; congruence.
  - left. cbn [bind fst snd] in Hrun.
    split; [exact H2|]. split; [reflexivity|]. split; congruence.
Qed.

(** Every run that returns ends in one of the five ways of [Outcome]. *)
Lemma invoke_outcome (w : World) (fuel : nat) (st : AdmissionState)
    (trace : list Workflow.Node) (final : AdmissionState) :
  Workflow.invoke w (5 + fuel) st = Ok (trace, final) ->
  Outcome w st trace final.
Proof.
  intros Hrun.
  destruct (invoke_cases _ _ _ _ _ Hrun) as (s1 & Hdc & Hrest).
  destruct (document_checker_cases _ _ _ Hdc)
    as [(-> & _ & m & Hm & Hle) | [notes ->]].
  2:{ destruct Hrest as [(_ & -> & ->) | (Hv & _)];
        [constructor | discriminate Hv]. }
  destruct Hrest as [(Hv & _) | (_ & s2 & Hsa & Hrest)];
    [now contradiction Hv|].
  destruct (shortlisting_cases w (verified_state st) s2 m (7 # 2)
              eq_refl eq_refl Hm Hle Hsa) as [(Hav & ->) | (Hav & ->)].
  - destruct Hrest as [(Hs & _) | [(_ & Hflag & -> & ->) | (_ & Hflag & s4 & Hla & -> & ->)]].
    + now contradiction Hs.
    + erewrite (proj1 (officer_cases w _)) by reflexivity.
      now apply admitted_on_payment.
    + rewrite loan_cases in Hla by reflexivity.
      destruct (LoanAgent.calculate_eligibility w
                  (application
                     (loan_informed_state w
                        (shortlisted_state w (verified_state st)))))
        as [ld|e] eqn:Hld; cbn [bind] in Hla; [|discriminate].
      inversion Hla; subst s4; clear Hla.
      destruct (eligible ld) eqn:Hel.
      * erewrite (proj1 (proj2 (officer_cases w _))) by reflexivity.
        now apply admitted_on_loan.
      * erewrite (proj2 (proj2 (officer_cases w _))) by reflexivity.
        now apply loan_refused.
  - destruct Hrest as [(_ & -> & ->) | [(Hs & _) | (Hs & _)]];
      [now apply capacity_refused | discriminate Hs | discriminate Hs].
Qed.

Lemma application_outcome (w : World) (application_data : Workflow.ApplicationData)
    (trace : list Workflow.Node) (final : AdmissionState) :
  Workflow.process_application w application_data = Ok (trace, final) ->
  Outcome w (Workflow.initial_state application_data) trace final.
Proof. apply (invoke_outcome w 20). Qed.

(** ** What a run of process_application can be *)

(** X1: a run of process_application that returns has followed one of four
    paths through the graph, and the path fixes the final status.  It stops
    after the Document Checker with documents_rejected, or after the
    Shortlisting Agent with rejected, or it goes on through the Student
    Counselor: without the loan_requested flag straight to the Admission
    Officer and admitted; with the flag through the Loan Agent, and then
    admitted if the drawn income and credit score reach 25000 and 650, and
    awaiting_payment if one of them does not. *)
Theorem X1_run_paths (w : World) (application_data : Workflow.ApplicationData)
    (trace : list Workflow.Node) (final : AdmissionState) :
  Workflow.process_application w application_data = Ok (trace, final) ->
  (trace = [Workflow.document_checker]
   /\ status (application final) = "documents_rejected")
  \/ (trace = [Workflow.document_checker; Workflow.shortlisting_agent]
      /\ status (application final) = "rejected")
  \/ (trace = [Workflow.document_checker; Workflow.shortlisting_agent;
               Workflow.student_counselor; Workflow.admission_officer]
      /\ loan_requested_flag (Workflow.initial_state application_data) = false
      /\ status (application final) = "admitted")
  \/ (trace = [Workflow.document_checker; Workflow.shortlisting_agent;
               Workflow.student_counselor; Workflow.loan_agent;
               Workflow.admission_officer]
      /\ loan_requested_flag (Workflow.initial_state application_data) = true
      /\ ((status (application final) = "admitted"
           /\ 25000 <= randint_income w /\ 650 <= randint_credit w)
          \/ (status (application final) = "awaiting_payment"
              /\ (randint_income w < 25000 \/ randint_credit w < 650)))).
Proof.
  intros Hrun.
  destruct (application_outcome _ _ _ _ Hrun)
    as [notes | Hav | Hflag | ld Hflag Hld Hel | ld Hflag Hld Hel].
  - left. split; reflexivity.
  - right; left. split; reflexivity.
  - right; right; left. repeat split. exact Hflag.
  - right; right; right. split; [reflexivity|]. split; [exact Hflag|].
    left. split; [reflexivity|].
    rewrite (eligible_spec _ _ _ Hld) in Hel.
    apply andb_true_iff in Hel as [Hi Hc]. split; lia.
  - right; right; right. split; [reflexivity|]. split; [exact Hflag|].
    right. split; [reflexivity|].
    rewrite (eligible_spec _ _ _ Hld) in Hel.
    apply andb_false_iff in Hel as [Hi | Hc]; [left | right]; lia.
Qed.

Lemma X1_run_paths_witness :
  exists final,
    Workflow.process_application Examples.w_poor
      (Examples.data_with (Examples.all_documents "file.pdf")
                          Examples.loan_context)
    = Ok ([Workflow.document_checker; Workflow.shortlisting_agent;
           Workflow.student_counselor; Workflow.loan_agent;
           Workflow.admission_officer], final)
    /\ status (application final) = "awaiting_payment"
    /\ randint_income Examples.w_poor < 25000.
Proof.
  eexists. split; [vm_compute; reflexivity|].
  match goal with
  | |- status (application ?f) = _ /\ _ =>
      destruct (X1_run_paths Examples.w_poor
                  (Examples.data_with (Examples.all_documents "file.pdf")
                                      Examples.loan_context)
                  [Workflow.document_checker; Workflow.shortlisting_agent;
                   Workflow.student_counselor; Workflow.loan_agent;
                   Workflow.admission_officer] f)
        as [(H & _) | [(H & _) | [(H & _) | (_ & _ & [(_ & H & _) | (H & _)])]]]
  end.
  - vm_compute. reflexivity.
  - discriminate H.
  - discriminate H.
  - discriminate H.
  - vm_compute in H. contradiction H. reflexivity.
  - split; [exact H | reflexivity].
Defined.

(** X3: the history a run of process_application returns is the audit trail
    of its path: one entry per handler run, and one more for the payment the
    Admission Officer records before it finalizes.  By final status the
    actions logged are fixed. *)
Theorem X3_audit_trail (w : World) (application_data : Workflow.ApplicationData)
    (trace : list Workflow.Node) (final : AdmissionState) :
  Workflow.process_application w application_data = Ok (trace, final) ->
  (length trace <= length (history final) <= length trace + 1)%nat
  /\ (status (application final) = "documents_rejected" ->
      map h_action (history final) = ["document_rejection"])
  /\ (status (application final) = "rejected" ->
      map h_action (history final)
      = ["document_verification"; "application_rejection"])
  /\ (status (application final) = "awaiting_payment" ->
      map h_action (history final)
      = ["document_verification"; "application_shortlisting";
         "loan_information_sent"; "loan_rejection"; "payment_reminder_sent"])
  /\ (status (application final) = "admitted" ->
      map h_action (history final)
      = if loan_requested_flag (Workflow.initial_state application_data)
        then ["document_verification"; "application_shortlisting";
              "loan_information_sent"; "loan_approval"; "admission_finalized"]
        else ["document_verification"; "application_shortlisting";
              "payment_instructions_sent"; "payment_received";
              "admission_finalized"]).
Proof.
  intros Hrun.
  destruct (application_outcome _ _ _ _ Hrun)
    as [notes | Hav | Hflag | ld Hflag Hld Hel | ld Hflag Hld Hel];
    try rewrite Hflag;
    (split; [cbn; lia|]);
    repeat split; intros Hs; try reflexivity; discriminate Hs.
Qed.

Lemma X3_audit_trail_witness :
  exists trace final,
    Workflow.process_application Examples.w0
      (Examples.data_with (Examples.all_documents "file.pdf") ∅)
    = Ok (trace, final)
    /\ (length trace <= length (history final) <= length trace + 1)%nat.
Proof.
  do 2 eexists. split; [vm_compute; reflexivity|].
  match goal with
  | |- (length ?t <= length (history ?f) <= _)%nat =>
      refine (proj1 (X3_audit_trail Examples.w0
                       (Examples.data_with (Examples.all_documents "file.pdf") ∅)
                       t f _))
  end.
  vm_compute. reflexivity.
Defined.

(** X4: an application that a run of process_application returns as admitted
    has been through every stage: its documents are verified with the
    eligibility score 3.5, it carries a shortlisting note, it has either the
    recorded payment or an approved loan (never both, never neither), and
    the last two communications sent are the admission letter and the fee
    slip. *)
Theorem X4_admitted_application (w : World)
    (application_data : Workflow.ApplicationData)
    (trace : list Workflow.Node) (final : AdmissionState) :
  Workflow.process_application w application_data = Ok (trace, final) ->
  status (application final) = "admitted" ->
  verification_notes (application final)
  = Some "All documents verified successfully."
  /\ eligibility_score (application final) = Some (7 # 2)
  /\ (exists notes, shortlisting_notes (application final) = Some notes)
  /\ ((payment_details (application final) = Some assumed_payment
       /\ loan_details (application final) = None)
      \/ (payment_details (application final) = None
          /\ exists ld, loan_details (application final) = Some ld
                        /\ eligible ld = true))
  /\ exists earlier,
       communications (application final)
       = earlier ++ [admission_letter w final; fee_slip w final].
Proof.
  intros Hrun Hadmitted.
  destruct (application_outcome _ _ _ _ Hrun)
    as [notes | Hav | Hflag | ld Hflag Hld Hel | ld Hflag Hld Hel];
    try discriminate Hadmitted.
  - split; [reflexivity|]. split; [reflexivity|].
    split; [eexists; reflexivity|]. split; [left; split; reflexivity|].
    eexists [_; _]. reflexivity.
  - split; [reflexivity|]. split; [reflexivity|].
    split; [eexists; reflexivity|].
    split; [right; split; [reflexivity | exists ld; split; [reflexivity | exact Hel]]|].
    eexists [_; _; _]. reflexivity.
Qed.

Lemma X4_admitted_application_witness :
  exists trace final,
    Workflow.process_application Examples.w0
      (Examples.data_with (Examples.all_documents "file.pdf")
                          Examples.loan_context)
    = Ok (trace, final)
    /\ status (application final) = "admitted"
    /\ eligibility_score (application final) = Some (7 # 2).
Proof.
  do 2 eexists. split; [vm_compute; reflexivity|].
  split; [reflexivity|].
  match goal with
  | |- eligibility_score (application ?f) = _ =>
      refine (proj1 (proj2 (X4_admitted_application Examples.w0
                              (Examples.data_with
                                 (Examples.all_documents "file.pdf")
                                 Examples.loan_context)
                              _ f _ eq_refl)))
  end.
  vm_compute. reflexivity.
Defined.

(** X5: an applicant who is turned down is told nothing.  When a run of
    process_application ends with documents_rejected or rejected, no
    communication has been sent and neither loan nor payment is on record;
    the reason is only in the notes and in the history. *)
Theorem X5_rejections_are_silent (w : World)
    (application_data : Workflow.ApplicationData)
    (trace : list Workflow.Node) (final : AdmissionState) :
  Workflow.process_application w application_data = Ok (trace, final) ->
  status (application final) = "documents_rejected"
  \/ status (application final) = "rejected" ->
  communications (application final) = []
  /\ loan_details (application final) = None
  /\ payment_details (application final) = None
  /\ (status (application final) = "documents_rejected" ->
      exists notes,
        verification_notes (application final) = Some notes
        /\ map h_fields (history final) = [[("reason", VStr notes)]])
  /\ (status (application final) = "rejected" ->
      exists notes,
        shortlisting_notes (application final) = Some notes
        /\ map h_fields (skipn 1 (history final)) = [[("reason", VStr notes)]]).
Proof.
  intros Hrun Hrejected.
  destruct (application_outcome _ _ _ _ Hrun)
    as [notes | Hav | Hflag | ld Hflag Hld Hel | ld Hflag Hld Hel];
    try (destruct Hrejected as [H | H]; discriminate H).
  - repeat (split; [reflexivity|]). split; intros H; [|discriminate H].
    exists notes. split; reflexivity.
  - repeat (split; [reflexivity|]). split; intros H; [discriminate H|].
    eexists. split; reflexivity.
Qed.

Lemma X5_rejections_are_silent_witness :
  exists trace final,
    Workflow.process_application Examples.w0
      (Examples.data_with Examples.no_passport ∅)
    = Ok (trace, final)
    /\ status (application final) = "documents_rejected"
    /\ communications (application final) = [].
Proof.
  do 2 eexists. split; [vm_compute; reflexivity|].
  split; [reflexivity|].
  match goal with
  | |- communications (application ?f) = _ =>
      refine (proj1 (X5_rejections_are_silent Examples.w0
                       (Examples.data_with Examples.no_passport ∅)
                       _ f _ (or_introl eq_refl)))
  end.
  vm_compute. reflexivity.
Defined.

(** X6: inside the workflow the Shortlisting Agent never rejects for the
    eligibility score.  The Document Checker has already held the same 3.5
    against the same threshold of the knowledge base, so an application that
    process_application returns as rejected was rejected for capacity: the
    program of its context was not available, and the note says so. *)
Theorem X6_rejected_means_no_capacity (w : World)
    (application_data : Workflow.ApplicationData)
    (trace : list Workflow.Node) (final : AdmissionState) :
  Workflow.process_application w application_data = Ok (trace, final) ->
  status (application final) = "rejected" ->
  ShortlistingAgent.check_program_availability w
    (program_of (Workflow.initial_state application_data)) = Ok false
  /\ shortlisting_notes (application final)
     = Some ("Application rejected: No capacity available in the "
             +:+ str_value w (program_of (Workflow.initial_state application_data))
             +:+ " program")
  /\ eligibility_score (application final) = Some (7 # 2).
Proof.
  intros Hrun Hrejected.
  destruct (application_outcome _ _ _ _ Hrun)
    as [notes | Hav | Hflag | ld Hflag Hld Hel | ld Hflag Hld Hel];
    try discriminate Hrejected.
  split; [exact Hav|]. split; reflexivity.
Qed.

Lemma X6_rejected_means_no_capacity_witness :
  exists trace final,
    Workflow.process_application Examples.w0
      (Examples.data_with (Examples.all_documents "file.pdf")
                          Examples.unknown_program)
    = Ok (trace, final)
    /\ status (application final) = "rejected"
    /\ eligibility_score (application final) = Some (7 # 2).
Proof.
  do 2 eexists. split; [vm_compute; reflexivity|].
  split; [reflexivity|].
  match goal with
  | |- eligibility_score (application ?f) = _ =>
      refine (proj2 (proj2 (X6_rejected_means_no_capacity Examples.w0
                              (Examples.data_with
                                 (Examples.all_documents "file.pdf")
                                 Examples.unknown_program)
                              _ f _ eq_refl)))
  end.
  vm_compute. reflexivity.
Defined.

(** ** When a run raises *)


Lemma policies_raises (w : World) (e : PyExn) :
  LoanAgent.get_loan_policies w = Raise e -> e = ValueError.
Proof.
  unfold LoanAgent.get_loan_policies.
  destruct (search w "loan policy") as [text|]; [|discriminate].
  destruct (re_search max_loan_pattern text) as [m|].
  - destruct (parse_int m) as [v|e'] eqn:Hm; cbn [bind];
      [|intros H; inversion H; subst; exact (parse_int_raises m e Hm)].
    destruct (re_search interest_pattern text) as [i|]; cbn [bind];
      [|discriminate].
    destruct (parse_float i) as [r|e'] eqn:Hi; cbn [bind]; [discriminate|].
    intros H; inversion H; subst. exact (parse_float_raises i e Hi).
  - cbn [bind].
    destruct (re_search interest_pattern text) as [i|]; cbn [bind];
      [|discriminate].
    destruct (parse_float i) as [r|e'] eqn:Hi; cbn [bind]; [discriminate|].
    intros H; inversion H; subst. exact (parse_float_raises i e Hi).
Qed.





(** X8: the current_agent a handler writes agrees with the graph.  Whenever
    a node, reached with a status its handler acts on, hands the state on
    along an edge, current_agent names the node at the end of that edge. *)
Theorem X8_current_agent_follows_the_graph (w : World) (n m : Workflow.Node)
    (st st' : AdmissionState) :
  expects n (status (application st)) ->
  Workflow.node_process w n st = Ok st' ->
  Workflow.next n st' = Workflow.Goto m ->
  current_agent st' = node_name m.
Proof.
  intros Hexp Hnode Hnext.
  destruct n; cbn [Workflow.node_process expects] in *.
  - destruct (document_checker_cases _ _ _ Hnode)
      as [(-> & _) | [notes ->]]; unfold Workflow.next in Hnext;
      cbn in Hnext; inversion Hnext; reflexivity.
  - unfold ShortlistingAgent.process in Hnode. rewrite Hexp in Hnode.
    cbn [String.eqb Ascii.eqb Bool.eqb negb] in Hnode.
    destruct (ShortlistingAgent.get_eligibility_criteria w) as [mg|e];
      cbn [bind] in Hnode; [|discriminate].
    destruct (eligibility_score (application st)) as [score|];
      [|discriminate].
    destruct (Qle_bool mg score); cbn [negb] in Hnode.
    + destruct (ShortlistingAgent.check_program_availability w _) as [[|]|e];
        cbn [bind negb] in Hnode; inversion Hnode; subst;
        unfold Workflow.next in Hnext; cbn in Hnext;
        inversion Hnext; reflexivity.
    + inversion Hnode; subst. unfold Workflow.next in Hnext; cbn in Hnext.
      discriminate Hnext.
  - inversion Hnode; subst st'. rewrite (counselor_cases w st Hexp) in *.
    destruct (loan_requested_flag st); unfold Workflow.next in Hnext;
      cbn in Hnext; inversion Hnext; reflexivity.
  - rewrite (loan_cases w st Hexp) in Hnode.
    destruct (LoanAgent.calculate_eligibility w (application st)) as [ld|e];
      cbn [bind] in Hnode; [|discriminate].
    inversion Hnode; subst. cbn in Hnext. inversion Hnext; subst.
    destruct (eligible ld); reflexivity.
  - discriminate Hnext.
Qed.

Lemma X8_current_agent_follows_the_graph_witness :
  current_agent
    (StudentCounselor.process Examples.w0
       (Examples.state_with "shortlisted" ∅ Examples.loan_context))
  = "loan_agent".
Proof.
  apply (X8_current_agent_follows_the_graph Examples.w0
           Workflow.student_counselor Workflow.loan_agent
           (Examples.state_with "shortlisted" ∅ Examples.loan_context)).
  - reflexivity.
  - reflexivity.
  - reflexivity.
Defined.

(** ** Shortlisting Agent *)

(** X9: the Shortlisting Agent makes its two checks in order, and the first
    that fails gives the reason.  On a documents_verified application, with
    the minimum GPA [m] it reads: a score below [m] is rejected for the score
    without the program being looked at (so also when the program has no
    capacity, or is a list that would raise); a score of at least [m] is
    shortlisted or rejected for capacity as the availability check says; and
    an application without a score raises a TypeError. *)
Theorem X9_shortlisting_checks_in_order (w : World) (st : AdmissionState) (m : Q) :
  status (application st) = "documents_verified" ->
  ShortlistingAgent.get_eligibility_criteria w = Ok m ->
  (eligibility_score (application st) = None ->
   ShortlistingAgent.process w st = Raise TypeError)
  /\ (forall score,
        eligibility_score (application st) = Some score ->
        (Qlt score m ->
         ShortlistingAgent.process w st
         = Ok (ShortlistingAgent.rejection
                 ("Application rejected: Eligibility score ("
                  +:+ repr_float w score
                  +:+ ") below minimum requirement (" +:+ repr_float w m
                  +:+ ")") st))
        /\ (Qle m score ->
            ShortlistingAgent.process w st
            = let? available :=
                ShortlistingAgent.check_program_availability w (program_of st) in
              Ok (if available then shortlisted_state w st
                  else capacity_rejected_state w st))).
Proof.
  intros Hst Hm. unfold ShortlistingAgent.process. rewrite Hst, Hm.
  cbn [String.eqb Ascii.eqb Bool.eqb negb bind].
  split; [intros ->; reflexivity|].
  intros score ->. split.
  - intros Hlt.
    assert (Hnle : Qle_bool m score = false).
    { apply not_true_is_false. intros Hle. apply Qle_bool_iff in Hle.
      now apply Qlt_not_le in Hlt. }
    now rewrite Hnle.
  - intros Hle. apply Qle_bool_iff in Hle. rewrite Hle. cbn [negb].
    fold (program_of st).
    destruct (ShortlistingAgent.check_program_availability w (program_of st))
      as [[|]|e]; reflexivity.
Qed.

Lemma X9_shortlisting_checks_in_order_witness :
  ShortlistingAgent.process Examples.w_strict
    (verified_state (Examples.state_with "new" ∅ Examples.unknown_program))
  = Ok (ShortlistingAgent.rejection
          ("Application rejected: Eligibility score ("
           +:+ repr_float Examples.w_strict (7 # 2)
           +:+ ") below minimum requirement ("
           +:+ repr_float Examples.w_strict (19 # 5) +:+ ")")
          (verified_state (Examples.state_with "new" ∅ Examples.unknown_program))).
Proof.
  refine (proj1 (proj2 (X9_shortlisting_checks_in_order Examples.w_strict
                          (verified_state
                             (Examples.state_with "new" ∅ Examples.unknown_program))
                          (19 # 5) eq_refl _) (7 # 2) eq_refl) _).
  - vm_compute. reflexivity.
  - reflexivity.
Defined.

Lemma capacities_untouched (l : list (string * Z)) (p : string) :
  (forall c, ~ In (p, c) l) ->
  forall m0 : gmap string Z,
    fold_left (fun capacities pc => <[fst pc := snd pc]> capacities) l m0 !! p
    = m0 !! p.
Proof.
  induction l as [|[q c] l IH]; intros Hnot m0; cbn [fold_left fst snd];
    [reflexivity|].
  rewrite IH by (intros c' Hin; apply (Hnot c'); now right).
  apply lookup_insert_ne. intros ->. apply (Hnot c). now left.
Qed.

(** X10: how the capacity table is put together.  When the knowledge base
    answers, every program the text names gets the capacity of its last
    mention, and a program the text does not name keeps its default (or
    stays absent). *)
Theorem X10_program_capacities (w : World) (text : string) :
  search w "university capacity" = Some text ->
  (forall p,
     (forall c, ~ In (p, c) (capacity_findall w text)) ->
     ShortlistingAgent.get_program_capacity w !! p
     = ShortlistingAgent.default_capacities !! p)
  /\ (forall earlier p c later,
        capacity_findall w text = earlier ++ (p, c) :: later ->
        (forall c', ~ In (p, c') later) ->
        ShortlistingAgent.get_program_capacity w !! p = Some c).
Proof.
  intros Hkb. unfold ShortlistingAgent.get_program_capacity. rewrite Hkb.
  split.
  - intros p Hnot. now apply capacities_untouched.
  - intros earlier p c later -> Hlater.
    rewrite fold_left_app. cbn [fold_left fst snd].
    rewrite capacities_untouched by exact Hlater.
    apply lookup_insert_eq.
Qed.

Lemma X10_program_capacities_witness :
  ShortlistingAgent.get_program_capacity
    (Examples.world_with_capacities
       [("Medicine", 10); ("Astrology", 5); ("Medicine", 0)])
  !! "Medicine" = Some 0.
Proof.
  refine (proj2 (X10_program_capacities
                   (Examples.world_with_capacities
                      [("Medicine", 10); ("Astrology", 5); ("Medicine", 0)])
                   "capacities" eq_refl)
            [("Medicine", 10); ("Astrology", 5)] "Medicine" 0 [] eq_refl _).
  intros c' [].
Defined.

(** X11: a program is available only when the context names it by a string
    that the capacity table lists, with the drawn enrolment below the
    capacity.  Enrolments are drawn from 0 up, so a program that the table
    does not list, or lists with capacity 0, is never available, and neither
    is a program given as a number, a boolean or None. *)
Theorem X11_program_availability (w : World) (program : PyVal) :
  (forall p c, 0 <= randint_enrollment w p c) ->
  (ShortlistingAgent.check_program_availability w program = Ok true
   <-> exists p c,
         program = VStr p
         /\ ShortlistingAgent.get_program_capacity w !! p = Some c
         /\ 0 <= randint_enrollment w p c < c)
  /\ (forall p,
        program = VStr p ->
        ShortlistingAgent.get_program_capacity w !! p = None
        \/ ShortlistingAgent.get_program_capacity w !! p = Some 0 ->
        ShortlistingAgent.check_program_availability w program = Ok false)
  /\ ((forall p, program <> VStr p) -> (forall l, program <> VStrs l) ->
      ShortlistingAgent.check_program_availability w program = Ok false).
Proof.
  intros Hdraw. unfold ShortlistingAgent.check_program_availability.
  split; [|split].
  - split.
    + destruct program as [| | | |p|l]; try discriminate.
      destruct (ShortlistingAgent.get_program_capacity w !! p) as [c|] eqn:Hc;
        [|discriminate].
      intros H. inversion H as [Hlt]. apply Z.ltb_lt in Hlt.
      exists p, c. repeat split; auto.
    + intros (p & c & -> & Hc & _ & Hlt). rewrite Hc.
      apply Z.ltb_lt in Hlt. now rewrite Hlt.
  - intros p -> [Hc | Hc]; rewrite Hc; [reflexivity|].
    assert (Hnlt : (randint_enrollment w p 0 <? 0) = false)
      by (apply Z.ltb_ge, Hdraw).
    now rewrite Hnlt.
  - intros Hstr Hlist.
    destruct program as [| | | |p|l]; try reflexivity.
    + now contradiction (Hstr p).
    + now contradiction (Hlist l).
Qed.

Lemma X11_program_availability_witness :
  ShortlistingAgent.check_program_availability Examples.w0 (VStr "Astrology")
  = Ok false.
Proof.
  refine (proj1 (proj2 (X11_program_availability Examples.w0 (VStr "Astrology") _))
            "Astrology" eq_refl _).
  - intros p c. vm_compute. discriminate.
  - left. vm_compute. reflexivity.
Defined.



(** ** Loan Agent *)

Lemma in_append (a : ascii) (x y : string) :
  In a (list_ascii_of_string (x +:+ y)) ->
  In a (list_ascii_of_string x) \/ In a (list_ascii_of_string y).
Proof.
  induction x as [|b x IH]; [now right|].
  rewrite append_cons. cbn [list_ascii_of_string In].
  intros [-> | Hin]; [now left; left|].
  destruct (IH Hin) as [H | H]; [left; now right | now right].
Qed.

Lemma parse_float_nonneg (s : string) (q : Q) :
  parse_float s = Ok q -> (0 <= q)%Q.
Proof.
  unfold parse_float.
  destruct (span is_digit s) as [ip rest] eqn:Hip.
  pose proof (span_class _ _ _ _ Hip) as Hdig.
  destruct rest as [|c fp].
  - destruct ip as [|x ip]; [discriminate|].
    pose proof (digits_value_nonneg (String x ip) Hdig 0 ltac:(lia)) as Hv.
    remember (digits_value 0 (String x ip)) as v.
    intros H. injection H as <-. unfold Qle. cbn [Qnum Qden inject_Z]. lia.
  - destruct (span is_digit fp) as [fd r2] eqn:Hfd.
    pose proof (span_class _ _ _ _ Hfd) as Hdig2.
    destruct r2; [|discriminate].
    destruct (ip +:+ fd) as [|x ds] eqn:Hds; [discriminate|].
    assert (Hv : 0 <= digits_value 0 (String x ds)).
    { apply digits_value_nonneg; [|lia].
      intros a Ha. rewrite <- Hds in Ha.
      destruct (in_append _ _ _ Ha); auto. }
    remember (digits_value 0 (String x ds)) as v.
    intros H. injection H as <-. rewrite Qred_correct.
    unfold Qle. cbn [Qnum Qden]. lia.
Qed.



(** X14: what the knowledge base can change in the loan policies.  Without a
    policy text the defaults apply.  With one, only the maximum amount and
    the interest rate can differ from the defaults, and neither is negative;
    the income and credit thresholds, the repayment period and the grace
    period are fixed.  Reading the policies fails only with a ValueError, and
    only when a policy text is there. *)
Theorem X14_loan_policies (w : World) :
  (search w "loan policy" = None ->
   LoanAgent.get_loan_policies w = Ok LoanAgent.default_policies)
  /\ (forall pol,
        LoanAgent.get_loan_policies w = Ok pol ->
        LoanAgent.minimum_income_requirement pol = 25000
        /\ LoanAgent.credit_score_requirement pol = 650
        /\ LoanAgent.policy_repayment_period_years pol = 10
        /\ LoanAgent.grace_period_months pol = 6
        /\ 0 <= LoanAgent.max_loan_amount pol
        /\ (0 <= LoanAgent.policy_interest_rate pol)%Q)
  /\ (forall e,
        LoanAgent.get_loan_policies w = Raise e ->
        e = ValueError /\ exists text, search w "loan policy" = Some text).
Proof.
  split; [|split].
  - unfold LoanAgent.get_loan_policies. now intros ->.
  - intros pol Hpol.
    destruct (policy_thresholds w pol Hpol) as [Hi Hc].
    pose proof (max_loan_amount_nonneg w pol Hpol) as Hmax.
    split; [exact Hi|]. split; [exact Hc|].
    unfold LoanAgent.get_loan_policies in Hpol.
    destruct (search w "loan policy") as [text|].
    + destruct (match re_search max_loan_pattern text with
                | Some m => parse_int m
                | None => Ok (LoanAgent.max_loan_amount LoanAgent.default_policies)
                end) as [mx|]; [|discriminate].
      cbn [bind] in Hpol.
      destruct (re_search interest_pattern text) as [g|].
      * destruct (parse_float g) as [q|] eqn:Hq; [|discriminate].
        cbn [bind] in Hpol. inversion Hpol. subst pol.
        cbn. repeat split; try lia; try exact Hmax.
        now apply (parse_float_nonneg g).
      * cbn [bind] in Hpol. inversion Hpol. subst pol.
        cbn. repeat split; try lia; try exact Hmax. discriminate.
    + inversion Hpol. cbn. repeat split; try lia. discriminate.
  - intros e He. split; [now apply (policies_raises w)|].
    unfold LoanAgent.get_loan_policies in He.
    destruct (search w "loan policy") as [text|]; [now exists text|discriminate].
Qed.

(** ** Document Checker *)

Lemma re_search_without_prefix (p : Pattern) (s : string) :
  contains (p_prefix p) s = false -> re_search p s = None.
Proof.
  induction s as [|a s IH]; intros Hc; rewrite contains_unfold in Hc.
  - cbn [re_search]. unfold match_here.
    destruct (strip_prefix (p_prefix p) "") ; [discriminate|reflexivity].
  - cbn [re_search]. unfold match_here.
    destruct (strip_prefix (p_prefix p) (String a s)); [discriminate|].
    now apply IH.
Qed.

(** X15: the validation of academic credentials on any transcript text.  The
    credentials are valid exactly when a GPA was found and it reaches the
    threshold; a text without "GPA:" gives no GPA and is never valid; a GPA
    that is found is never negative; the threshold is the one the
    Shortlisting Agent reads for its own check, 3.0 when the knowledge base
    has no criteria text; and the only exception is a ValueError (a malformed
    number). *)
Theorem X15_credentials (w : World) (text : string) :
  (forall cr,
     DocumentChecker.validate_academic_credentials w text = Ok cr ->
     (DocumentChecker.is_valid cr = true
      <-> exists g, DocumentChecker.gpa cr = Some g
                    /\ (DocumentChecker.min_gpa_required cr <= g)%Q)
     /\ (contains "GPA:" text = false ->
         DocumentChecker.gpa cr = None /\ DocumentChecker.is_valid cr = false)
     /\ (forall g, DocumentChecker.gpa cr = Some g -> (0 <= g)%Q)
     /\ ShortlistingAgent.get_eligibility_criteria w
        = Ok (DocumentChecker.min_gpa_required cr)
     /\ (search w "eligibility criteria" = None ->
         DocumentChecker.min_gpa_required cr = 3 # 1))
  /\ (forall e,
        DocumentChecker.validate_academic_credentials w text = Raise e ->
        e = ValueError).
Proof.
  split.
  - intros cr Hcr. pose proof (is_valid_spec w text cr Hcr) as Hvalid.
    unfold DocumentChecker.validate_academic_credentials in Hcr.
    fold (ShortlistingAgent.get_eligibility_criteria w) in Hcr.
    destruct (match re_search gpa_pattern text with
              | Some g => let? v := parse_float g in Ok (Some v)
              | None => Ok None
              end) as [og|] eqn:Hg; [|discriminate].
    cbn [bind] in Hcr.
    destruct (ShortlistingAgent.get_eligibility_criteria w) as [m|] eqn:Hm;
      [|discriminate].
    cbn [bind] in Hcr. injection Hcr as <-.
    cbn [DocumentChecker.gpa DocumentChecker.min_gpa_required
         DocumentChecker.is_valid] in *.
    split; [|split; [|split; [|split]]].
    + destruct og as [g|].
      * unfold DocumentChecker.Qge_bool. rewrite Qle_bool_iff. split.
        -- intros Hle. now exists g.
        -- now intros (g' & [= <-] & Hle).
      * split; [discriminate|]. now intros (g' & Hno & _).
    + intros Hno. rewrite (re_search_without_prefix gpa_pattern text Hno) in Hg.
      injection Hg as <-. now split.
    + intros g ->. destruct (re_search gpa_pattern text) as [s|]; [|discriminate].
      destruct (parse_float s) as [v|] eqn:Hv; [|discriminate].
      cbn [bind] in Hg. injection Hg as ->.
      now apply (parse_float_nonneg s).
    + reflexivity.
    + intros Hkb. unfold ShortlistingAgent.get_eligibility_criteria in Hm.
      rewrite Hkb in Hm. now injection Hm as <-.
  - intros e He.
    unfold DocumentChecker.validate_academic_credentials in He.
    fold (ShortlistingAgent.get_eligibility_criteria w) in He.
    destruct (re_search gpa_pattern text) as [s|].
    + destruct (parse_float s) as [v|e'] eqn:Hv.
      * cbn [bind] in He.
        destruct (ShortlistingAgent.get_eligibility_criteria w) as [m|e'] eqn:Hm;
          [discriminate|].
        cbn [bind] in He. injection He as <-. now apply (criteria_raises w).
      * cbn [bind] in He. injection He as <-. now apply (parse_float_raises s).
    + cbn [bind] in He.
      destruct (ShortlistingAgent.get_eligibility_criteria w) as [m|e'] eqn:Hm;
        [discriminate|].
      cbn [bind] in He. injection He as <-. now apply (criteria_raises w).
Qed.

(** X16: the Document Checker looks only at which of the five required
    document types are present.  Two applications that agree on that (they
    may differ in the contents of the documents, in further documents, and in
    everything else) get the same status and the same verification notes, or
    fail with the same exception. *)
Theorem X16_only_presence_counts (w : World) (st1 st2 : AdmissionState) :
  (forall d, In d DocumentChecker.required_documents ->
             DocumentChecker.has_document (documents (application st1)) d
             = DocumentChecker.has_document (documents (application st2)) d) ->
  match DocumentChecker.process w st1, DocumentChecker.process w st2 with
  | Ok r1, Ok r2 =>
      status (application r1) = status (application r2)
      /\ verification_notes (application r1) = verification_notes (application r2)
      /\ last (history r1) = last (history r2)
  | Raise e1, Raise e2 => e1 = e2
  | _, _ => False
  end.
Proof.
  intros Hsame.
  assert (Hc : DocumentChecker.check_document_completeness
                 (documents (application st1))
               = DocumentChecker.check_document_completeness
                   (documents (application st2))).
  { unfold DocumentChecker.check_document_completeness.
    apply map_ext_in. intros d Hd. now rewrite (Hsame d Hd). }
  unfold DocumentChecker.process. rewrite Hc.
  destruct (forallb snd (DocumentChecker.check_document_completeness
                           (documents (application st2)))).
  - cbn [negb].
    destruct (DocumentChecker.validate_academic_credentials w
                DocumentChecker.transcript_text) as [cr|e]; [|reflexivity].
    cbn [bind]. destruct (DocumentChecker.is_valid cr); cbn [negb].
    + cbn. now rewrite !last_snoc.
    + cbn. now rewrite !last_snoc.
  - cbn [negb]. cbn. now rewrite !last_snoc.
Qed.

Lemma X16_only_presence_counts_witness :
  match DocumentChecker.process Examples.w0 Examples.state_a,
        DocumentChecker.process Examples.w0 Examples.state_b with
  | Ok r1, Ok r2 =>
      status (application r1) = status (application r2)
      /\ verification_notes (application r1) = verification_notes (application r2)
      /\ last (history r1) = last (history r2)
  | Raise e1, Raise e2 => e1 = e2
  | _, _ => False
  end.
Proof.
  apply (X16_only_presence_counts Examples.w0 Examples.state_a Examples.state_b).
  intros d Hd. cbn in Hd.
  repeat (destruct Hd as [<- | Hd]; [reflexivity|]). destruct Hd.
Defined.

(** ** Admission Officer *)



(** ** Utilities *)

Lemma concat_chunks {A} (size : nat) (lst : list A) (m : nat) :
  concat (map (fun i => take size (drop i lst))
              (map (fun k => (k * size)%nat) (seq 0 m)))
  = take (m * size) lst.
Proof.
  induction m as [|m IH]; [reflexivity|].
  rewrite seq_S, !map_app, concat_app, IH.
  cbn [map concat plus]. rewrite app_nil_r, take_take_drop.
  f_equal. lia.
Qed.

Lemma chunk_count (n size : nat) :
  (0 < size)%nat ->
  (n <= Nat.div (n + size - 1) size * size < n + size)%nat.
Proof.
  intros Hsize.
  pose proof (Nat.div_mod_eq (n + size - 1) size) as Hdm.
  pose proof (Nat.mod_upper_bound (n + size - 1) size ltac:(lia)) as Hmod.
  nia.
Qed.

(** X22: for a positive chunk size, chunked_list cuts the list into
    consecutive pieces.  Concatenated they give the list back; piece k is the
    slice from k * chunk_size; every piece is non-empty and at most
    chunk_size long, and every piece but the last is exactly chunk_size
    long; their number is the length divided by chunk_size, rounded up.  A
    chunk size of 0 raises a ValueError (also for an empty list), and a
    negative one returns no chunk at all, whatever the list holds. *)
Theorem X22_chunked_list {A} (lst : list A) (chunk_size : Z) :
  (chunk_size = 0 -> Utils.chunked_list lst chunk_size = Raise ValueError)
  /\ (chunk_size < 0 -> Utils.chunked_list lst chunk_size = Ok [])
  /\ (0 < chunk_size ->
      let size := Z.to_nat chunk_size in
      exists chunks,
        Utils.chunked_list lst chunk_size = Ok chunks
        /\ concat chunks = lst
        /\ chunks = map (fun k => take size (drop (k * size) lst))
                        (seq 0 (length chunks))
        /\ (length lst <= length chunks * size < length lst + size)%nat
        /\ Forall (fun chunk => (0 < length chunk <= size)%nat) chunks
        /\ (forall k, (S k < length chunks)%nat ->
                      length (nth k chunks []) = size)).
Proof.
  unfold Utils.chunked_list. split; [|split].
  - now intros ->.
  - intros Hneg. destruct (Z.eqb_spec chunk_size 0); [lia|].
    destruct (Z.ltb_spec chunk_size 0); [reflexivity|lia].
  - intros Hpos. set (size := Z.to_nat chunk_size).
    destruct (Z.eqb_spec chunk_size 0); [lia|].
    destruct (Z.ltb_spec chunk_size 0); [lia|].
    unfold Utils.range_by.
    assert (Hsize : (0 < size)%nat) by (subst size; lia).
    set (m := Nat.div (length lst + size - 1) size).
    pose proof (chunk_count (length lst) size Hsize) as Hm. fold m in Hm.
    eexists. split; [reflexivity|].
    assert (Hlen : length (map (fun i => take size (drop i lst))
                               (map (fun k => (k * size)%nat) (seq 0 m))) = m)
      by now rewrite !length_map, length_seq.
    split; [|split; [|split; [|split]]].
    + rewrite concat_chunks. apply take_ge. lia.
    + rewrite Hlen. now rewrite map_map.
    + now rewrite Hlen.
    + rewrite map_map. apply List.Forall_forall. intros chunk Hin.
      apply in_map_iff in Hin. destruct Hin as (k & <- & Hk).
      apply in_seq in Hk. rewrite length_take, length_drop. nia.
    + rewrite Hlen. intros k Hk. rewrite map_map.
      rewrite (nth_indep _ [] (take size (drop (0 * size) lst)))
        by (rewrite length_map, length_seq; lia).
      rewrite (map_nth (fun k => take size (drop (k * size) lst)) (seq 0 m) 0%nat k).
      rewrite seq_nth by lia.
      rewrite length_take, length_drop. nia.
Qed.

Lemma X22_chunked_list_witness :
  exists chunks,
    Utils.chunked_list [1; 2; 3; 4; 5; 6; 7] 3 = Ok chunks
    /\ concat chunks = [1; 2; 3; 4; 5; 6; 7]
    /\ length chunks = 3%nat.
Proof.
  destruct (proj2 (proj2 (X22_chunked_list [1; 2; 3; 4; 5; 6; 7] 3))
              ltac:(lia))
    as (chunks & Hc & Hcat & _).
  exists chunks. split; [exact Hc|]. split; [exact Hcat|].
  vm_compute in Hc. injection Hc as <-. reflexivity.
Defined.

(** ** Conversation history *)

Lemma slice_from_suffix {A} (i : Z) (l : list A) :
  ConversationMemory.slice_from i l `suffix_of` l.
Proof.
  unfold ConversationMemory.slice_from.
  eexists (take _ l). symmetry. apply take_drop.
Qed.

(** X20: get_messages always returns a tail of the stored messages.  Without
    a limit, or with limit 0, it returns all of them; with a positive limit k
    the last k, or all when fewer are stored; and with a negative limit -k
    everything but the first k.  Right after add_message, limit 1 returns
    just the new message. *)
Theorem X20_get_messages_limit (messages : list ConversationMemory.Entry)
    (limit : option Z) :
  let result := ConversationMemory.get_messages limit messages in
  result `suffix_of` messages
  /\ (limit = None \/ limit = Some 0 -> result = messages)
  /\ (forall k, limit = Some k -> 0 < k ->
        result = drop (length messages - Z.to_nat k) messages
        /\ length result = Nat.min (Z.to_nat k) (length messages))
  /\ (forall k, limit = Some k -> k < 0 ->
        result = drop (Z.to_nat (- k)) messages)
  /\ (forall now r c,
        ConversationMemory.get_messages (Some 1)
          (ConversationMemory.add_message now r c messages)
        = [{| ConversationMemory.role := r; ConversationMemory.content := c;
              ConversationMemory.timestamp := now |}]).
Proof.
  intros result. subst result. split; [|split; [|split; [|split]]].
  - destruct limit as [k|]; cbn [ConversationMemory.get_messages];
      [|reflexivity].
    destruct (k =? 0); [reflexivity|apply slice_from_suffix].
  - now intros [-> | ->].
  - intros k -> Hk. cbn [ConversationMemory.get_messages].
    destruct (Z.eqb_spec k 0); [lia|].
    unfold ConversationMemory.slice_from.
    destruct (Z.ltb_spec (- k) 0); [|lia].
    replace (Z.to_nat (Z.max (- k + Z.of_nat (length messages)) 0))
      with (length messages - Z.to_nat k)%nat by lia.
    split; [reflexivity|]. rewrite length_drop. lia.
  - intros k -> Hk. cbn [ConversationMemory.get_messages].
    destruct (Z.eqb_spec k 0); [lia|].
    unfold ConversationMemory.slice_from.
    destruct (Z.ltb_spec (- k) 0); [lia|].
    destruct (Z.le_gt_cases (- k) (Z.of_nat (length messages))) as [Hle | Hgt].
    + now rewrite Z.min_l by exact Hle.
    + rewrite Z.min_r by lia. rewrite Nat2Z.id.
      rewrite !drop_ge; [reflexivity|lia|lia].
  - intros now r c. cbn [ConversationMemory.get_messages Z.eqb].
    unfold ConversationMemory.slice_from, ConversationMemory.add_message.
    change (- (1) <? 0) with true. cbv iota.
    rewrite length_app. cbn [length].
    replace (Z.to_nat (Z.max (- (1) + Z.of_nat (length messages + 1)) 0))
      with (length messages) by lia.
    apply drop_app_length.
Qed.

(** X21: what add_message changes in the summary.  It counts one more
    message, its latest time is the time of the new message, its start time
    is unchanged unless the conversation was empty (then it is the time of
    the new message), and its participants are the earlier ones and the new
    role.  The start time is missing exactly for an empty conversation. *)
Theorem X21_summary_after_add (id now r c : string)
    (messages : list ConversationMemory.Entry) :
  let earlier := ConversationMemory.get_summary id messages in
  let later :=
    ConversationMemory.get_summary id
      (ConversationMemory.add_message now r c messages) in
  ConversationMemory.message_count later
  = S (ConversationMemory.message_count earlier)
  /\ ConversationMemory.latest_time later = Some now
  /\ ConversationMemory.start_time later
     = match ConversationMemory.start_time earlier with
       | Some t => Some t
       | None => Some now
       end
  /\ ConversationMemory.participants later
     = ConversationMemory.participants earlier ∪ {[ r ]}
  /\ (ConversationMemory.start_time earlier = None
      <-> ConversationMemory.message_count earlier = 0%nat).
Proof.
  intros earlier later. subst earlier later.
  unfold ConversationMemory.get_summary, ConversationMemory.add_message.
  cbn [ConversationMemory.message_count ConversationMemory.latest_time
       ConversationMemory.start_time ConversationMemory.participants].
  split; [|split; [|split; [|split]]].
  - rewrite length_app. cbn [length]. lia.
  - now rewrite last_snoc.
  - now destruct messages.
  - rewrite map_app. cbn [map].
    rewrite list_to_set_app_L. cbn [list_to_set foldr].
    now rewrite (right_id_L ∅ (∪)).
  - destruct messages; cbn; split; intros H; [reflexivity| reflexivity
                                             | discriminate | discriminate].
Qed.

(** ** The agent base class *)

Lemma converse_cons (generate_content : list AgentBase.Message -> string)
    (u : string) (rest : list string) (agent : AgentBase.Agent) :
  let response := generate_content (AgentBase.prompt agent u) in
  let agent1 :=
    AgentBase.add_message "assistant" response
      (AgentBase.add_message "user" u agent) in
  AgentBase.converse generate_content (u :: rest) agent
  = (response :: fst (AgentBase.converse generate_content rest agent1),
     snd (AgentBase.converse generate_content rest agent1)).
Proof.
  cbn [AgentBase.converse AgentBase.generate_response].
  now destruct (AgentBase.converse generate_content rest _).
Qed.

Lemma converse_spec (generate_content : list AgentBase.Message -> string)
    (inputs : list string) :
  forall agent,
    let responses := fst (AgentBase.converse generate_content inputs agent) in
    let agent' := snd (AgentBase.converse generate_content inputs agent) in
    AgentBase.messages (AgentBase.state agent')
    = AgentBase.messages (AgentBase.state agent)
      ++ AgentBase.exchanges inputs responses
    /\ length responses = length inputs
    /\ AgentBase.a_context (AgentBase.state agent')
       = AgentBase.a_context (AgentBase.state agent)
    /\ AgentBase.memory (AgentBase.state agent')
       = AgentBase.memory (AgentBase.state agent)
    /\ AgentBase.system_prompt agent' = AgentBase.system_prompt agent
    /\ AgentBase.name agent' = AgentBase.name agent.
Proof.
  induction inputs as [|u rest IH]; intros agent.
  - cbn. now rewrite app_nil_r.
  - cbv zeta. rewrite converse_cons. cbv zeta. cbn [fst snd].
    destruct (IH (AgentBase.add_message "assistant"
                    (generate_content (AgentBase.prompt agent u))
                    (AgentBase.add_message "user" u agent)))
      as (Hm & Hl & Hc & Hmem & Hs & Hn).
    cbv zeta in Hm, Hl, Hc, Hmem, Hs, Hn.
    cbn [AgentBase.exchanges length].
    rewrite Hm, Hl, Hc, Hmem, Hs, Hn.
    cbn [AgentBase.add_message AgentBase.with_state AgentBase.state
         AgentBase.messages AgentBase.a_context AgentBase.memory
         AgentBase.system_prompt AgentBase.name].
    rewrite <- !app_assoc. cbn [app]. repeat split; reflexivity.
Qed.

Lemma converse_snoc (generate_content : list AgentBase.Message -> string)
    (earlier : list string) (u : string) :
  forall agent,
    fst (AgentBase.converse generate_content (earlier ++ [u]) agent)
    = fst (AgentBase.converse generate_content earlier agent)
      ++ [generate_content
            (AgentBase.prompt
               (snd (AgentBase.converse generate_content earlier agent)) u)].
Proof.
  induction earlier as [|v earlier IH]; intros agent.
  - reflexivity.
  - cbn [app]. rewrite !converse_cons. cbv zeta. cbn [fst snd app].
    now rewrite IH.
Qed.

(** X19: generate_response replays the conversation.  After calls on the
    inputs in turn, the stored history is the earlier history followed by
    the exchanges in order, each input as a user message followed by the
    model's answer as an assistant message: two messages per call, none of
    them the system prompt.  Context, memory, name and system prompt are
    untouched.  And the model is sent, at each call, the system prompt, the
    whole history up to then, and the new input. *)
Theorem X19_conversation_is_replayed
    (generate_content : list AgentBase.Message -> string)
    (inputs : list string) (agent : AgentBase.Agent) :
  let responses := fst (AgentBase.converse generate_content inputs agent) in
  let agent' := snd (AgentBase.converse generate_content inputs agent) in
  AgentBase.messages (AgentBase.state agent')
  = AgentBase.messages (AgentBase.state agent)
    ++ AgentBase.exchanges inputs responses
  /\ length (AgentBase.messages (AgentBase.state agent'))
     = (length (AgentBase.messages (AgentBase.state agent))
        + 2 * length inputs)%nat
  /\ Forall (fun m => AgentBase.role m = "user" \/ AgentBase.role m = "assistant")
            (AgentBase.exchanges inputs responses)
  /\ AgentBase.a_context (AgentBase.state agent')
     = AgentBase.a_context (AgentBase.state agent)
  /\ AgentBase.memory (AgentBase.state agent')
     = AgentBase.memory (AgentBase.state agent)
  /\ AgentBase.system_prompt agent' = AgentBase.system_prompt agent
  /\ (forall earlier u,
        inputs = earlier ++ [u] ->
        let earlier_responses :=
          fst (AgentBase.converse generate_content earlier agent) in
        responses
        = earlier_responses
          ++ [generate_content
                ({| AgentBase.role := "system";
                    AgentBase.content := AgentBase.system_prompt agent |}
                 :: AgentBase.messages (AgentBase.state agent)
                 ++ AgentBase.exchanges earlier earlier_responses
                 ++ [{| AgentBase.role := "user"; AgentBase.content := u |}])]).
Proof.
  intros responses agent'.
  destruct (converse_spec generate_content inputs agent)
    as (Hm & Hl & Hc & Hmem & Hs & _).
  cbv zeta in Hm, Hl, Hc, Hmem, Hs. fold responses in Hm, Hl. fold agent' in Hm, Hc, Hmem, Hs.
  assert (Hex : forall ins outs,
             length outs = length ins ->
             length (AgentBase.exchanges ins outs) = (2 * length ins)%nat
             /\ Forall (fun m => AgentBase.role m = "user"
                                 \/ AgentBase.role m = "assistant")
                       (AgentBase.exchanges ins outs)).
  { induction ins as [|i ins IH]; intros [|o outs] Hlen; try discriminate.
    - split; [reflexivity|constructor].
    - cbn [AgentBase.exchanges length].
      destruct (IH outs ltac:(now injection Hlen)) as [Hlen' Hall].
      split; [lia|]. constructor; [now left|]. constructor; [now right|].
      exact Hall. }
  destruct (Hex inputs responses Hl) as [Hlen Hroles].
  split; [exact Hm|]. split; [rewrite Hm, length_app; lia|].
  split; [exact Hroles|]. split; [exact Hc|]. split; [exact Hmem|].
  split; [exact Hs|].
  intros earlier u -> earlier_responses. subst responses earlier_responses.
  rewrite converse_snoc. f_equal. f_equal.
  destruct (converse_spec generate_content earlier agent)
    as (Hm' & _ & _ & _ & Hs' & _).
  cbv zeta in Hm', Hs'. unfold AgentBase.prompt. rewrite Hm', Hs'.
  cbn [app]. now rewrite <- app_assoc.
Qed.

Lemma X19_conversation_is_replayed_witness :
  fst (AgentBase.converse
         (fun messages => if Nat.eqb (length messages) 2 then "first" else "later")
         (["hello"] ++ ["again"])
         {| AgentBase.name := "Agent"; AgentBase.system_prompt := "be brief";
            AgentBase.model_name := "model";
            AgentBase.state :=
              {| AgentBase.a_context := ∅; AgentBase.messages := [];
                 AgentBase.memory := ∅ |} |})
  = ["first"; "later"].
Proof.
  exact (proj2 (proj2 (proj2 (proj2 (proj2 (proj2
           (X19_conversation_is_replayed
              (fun messages => if Nat.eqb (length messages) 2 then "first" else "later")
              (["hello"] ++ ["again"])
              {| AgentBase.name := "Agent"; AgentBase.system_prompt := "be brief";
                 AgentBase.model_name := "model";
                 AgentBase.state :=
                   {| AgentBase.a_context := ∅; AgentBase.messages := [];
                      AgentBase.memory := ∅ |} |}))))))
           ["hello"] "again" eq_refl).
Defined.

(** ** The loan rejection letter *)

Lemma contains_app_r (sub a b : string) :
  contains sub b = true -> contains sub (a +:+ b) = true.
Proof.
  intros Hb. induction a as [|x a IH]; [exact Hb|].
  rewrite append_cons, contains_unfold.
  destruct (strip_prefix sub (String x (a +:+ b))); [reflexivity|exact IH].
Qed.

Lemma strip_prefix_app_l (sub a b : string) :
  is_Some (strip_prefix sub a) -> is_Some (strip_prefix sub (a +:+ b)).
Proof.
  revert a. induction sub as [|x sub IH]; intros a Ha; [now eexists|].
  destruct a as [|y a]; [now destruct Ha|].
  rewrite append_cons. cbn [strip_prefix] in *.
  destruct (Ascii.eqb x y); [now apply IH|now destruct Ha].
Qed.

Lemma contains_app_l (sub a b : string) :
  contains sub a = true -> contains sub (a +:+ b) = true.
Proof.
  induction a as [|x a IH]; intros Ha; rewrite contains_unfold in Ha;
    rewrite contains_unfold.
  - destruct (strip_prefix sub "") eqn:Hs; [|discriminate].
    destruct (strip_prefix_app_l sub "" b ltac:(now rewrite Hs)) as [r ->].
    reflexivity.
  - destruct (strip_prefix sub (String x a)) eqn:Hs.
    + destruct (strip_prefix_app_l sub (String x a) b ltac:(now rewrite Hs))
        as [r ->].
      reflexivity.
    + rewrite append_cons.
      destruct (strip_prefix sub (String x (a +:+ b))); [reflexivity|].
      now apply IH.
Qed.

Lemma stated_reasons_in (r : string) (rs : list (option string)) :
  In (Some r) rs -> r <> "" -> In r (LoanLetters.stated_reasons rs).
Proof.
  intros Hin Hne. induction rs as [|[s|] rs IH]; [destruct Hin| |].
  - cbn [LoanLetters.stated_reasons].
    destruct Hin as [[= ->] | Hin].
    + rewrite (status_eqb_false _ _ Hne). now left.
    + destruct (String.eqb s ""); [now apply IH|right; now apply IH].
  - cbn [LoanLetters.stated_reasons].
    destruct Hin as [[=] | Hin]. now apply IH.
Qed.

Lemma stated_reasons_stated (rs : list (option string)) :
  LoanLetters.stated_reasons (map Some (LoanLetters.stated_reasons rs))
  = LoanLetters.stated_reasons rs.
Proof.
  induction rs as [|[s|] rs IH]; [reflexivity| |exact IH].
  cbn [LoanLetters.stated_reasons].
  destruct (String.eqb s "") eqn:Hs; [exact IH|].
  cbn [map LoanLetters.stated_reasons]. now rewrite Hs, IH.
Qed.

(** X18: the loan rejection letter states its reasons.  It addresses the
    student by name and shows every stated reason as a list item
    ("- reason"); empty slots (None, or an empty string) leave no trace.
    For the reasons the Loan Agent computes for a refused loan, the letter
    names the insufficient family income whenever the drawn income is below
    25000, and the insufficient credit score whenever the drawn score is
    below 650. *)
Theorem X18_rejection_letter_states_reasons (student_name : string)
    (rs : list (option string)) :
  let letter := LoanLetters.generate_loan_rejection_letter student_name rs in
  contains ("Dear " +:+ student_name +:+ ",") letter = true
  /\ (forall r, In (Some r) rs -> r <> "" ->
                contains ("- " +:+ r) letter = true)
  /\ letter
     = LoanLetters.generate_loan_rejection_letter student_name
         (map Some (LoanLetters.stated_reasons rs))
  /\ (forall w a ld,
        LoanAgent.calculate_eligibility w a = Ok ld ->
        eligible ld = false ->
        rs = reasons ld ->
        (randint_income w < 25000 ->
         contains "- Insufficient family income" letter = true)
        /\ (randint_credit w < 650 ->
            contains "- Insufficient credit score" letter = true)).
Proof.
  intros letter.
  assert (Hname : contains ("Dear " +:+ student_name +:+ ",") letter = true).
  { subst letter. unfold LoanLetters.generate_loan_rejection_letter.
    apply contains_app_r.
    change "        Dear " with ("        " +:+ "Dear ").
    rewrite (append_assoc "        " "Dear ").
    apply contains_app_r.
    rewrite <- (append_assoc student_name ","), <- (append_assoc "Dear ").
    apply (contains_append "" ("Dear " +:+ student_name +:+ ",")). }
  assert (Hreason : forall r, In (Some r) rs -> r <> "" ->
                              contains ("- " +:+ r) letter = true).
  { intros r Hin Hne.
    assert (Hlist : contains ("- " +:+ r) (LoanLetters.reasons_list rs) = true).
    { unfold LoanLetters.reasons_list.
      destruct (concat_shows LoanLetters.nl ("- " +:+ r)
                  (map (fun reason => "- " +:+ reason)
                       (LoanLetters.stated_reasons rs)))
        as (pre & post & ->).
      - apply in_map. now apply stated_reasons_in.
      - apply contains_append. }
    subst letter. unfold LoanLetters.generate_loan_rejection_letter.
    repeat first [ apply contains_app_l; exact Hlist | apply contains_app_r ]. }
  split; [exact Hname|]. split; [exact Hreason|]. split.
  - subst letter.
    unfold LoanLetters.generate_loan_rejection_letter, LoanLetters.reasons_list.
    now rewrite stated_reasons_stated.
  - intros w a ld Hld Hel ->.
    unfold LoanAgent.calculate_eligibility in Hld.
    destruct (LoanAgent.get_loan_policies w) as [pol|] eqn:Hpol; [|discriminate].
    destruct (policy_thresholds w pol Hpol) as [Hi Hc].
    cbn [bind] in Hld. rewrite Hi, Hc in Hld. injection Hld as <-.
    cbn [eligible] in Hel. cbn [reasons] in Hreason. rewrite Hel in Hreason.
    split.
    + intros Hlow. apply Hreason; [|discriminate].
      apply Z.ltb_lt in Hlow. rewrite Hlow. now left.
    + intros Hlow. apply Hreason; [|discriminate].
      apply Z.ltb_lt in Hlow. rewrite Hlow. right. now left.
Qed.

Lemma X18_rejection_letter_states_reasons_witness :
  contains "- Insufficient family income"
    (LoanLetters.generate_loan_rejection_letter "Ada"
       [Some "Insufficient family income"; None]) = true.
Proof.
  apply (proj1 (proj2 (X18_rejection_letter_states_reasons "Ada"
                         [Some "Insufficient family income"; None]))
           "Insufficient family income").
  - now left.
  - discriminate.
Defined.
